(** * parsl.app.app_factory: AppFactory and AppFactoryFactory

    A shallow embedding of [parsl/app/app_factory.py].

    Python values are an inductive type, Python [str] is a list of code
    points, [bytes] a list of 8-bit numbers.  The two library functions
    the module calls on data, [str.encode('utf-8')] and
    [hashlib.md5(..).hexdigest()], are written out (RFC 3629, RFC 1321)
    so that identities can be evaluated on concrete callables.
    Logging, object allocation and the calls into the wrapper classes
    are effects of a small state-and-exception monad. *)

From Stdlib Require Import NArith List String Ascii Lia.
From stdpp Require Import gmap list fin_maps.

Local Open Scope N_scope.

(** ** Python strings and bytes *)

(** A Python [str]: a sequence of code points. *)
Definition pystr : Type := list N.
(** A Python [bytes]: a sequence of numbers below 256. *)
Definition pybytes : Type := list N.

Fixpoint pystr_of_string (s : string) : pystr :=
  match s with
  | EmptyString => []
  | String c r => N_of_ascii c :: pystr_of_string r
  end.

Notation "'py' s" := (pystr_of_string s%string) (at level 9, only parsing).

(** ** Values, exceptions and outcomes *)

#[warnings="-register-all"]
Inductive value : Type :=
| VNone
| VBool (b : bool)
| VInt (z : Z)
| VStr (s : pystr)
| VList (l : list value)
| VObj (id : N).

(** Modelled from the spec: [parsl.app.errors.InvalidAppTypeError], which
    is not among the sources here; the spec has it identify the registry
    name and the offending kind, so the exception carries the arguments
    it is raised with.  The other constructors are Python's own. *)
Inductive exn : Type :=
| OSError
| TypeError
| ValueError
| AttributeError
| UnicodeEncodeError
| InvalidAppTypeError (args : list value)
| OtherError (tag : N).

Inductive outcome (A : Type) : Type :=
| Ret (a : A)
| Raise (e : exn).
Arguments Ret {A} a.
Arguments Raise {A} e.

(** ** [str.encode('utf-8')] *)

Module Utf8.

(** The bytes of one code point; lone surrogates and numbers above
    U+10FFFF are not encodable. *)
Definition encode_char (c : N) : option pybytes :=
  if c <? 0x80 then Some [c]
  else if c <? 0x800 then
    Some [N.lor 0xC0 (N.shiftr c 6); N.lor 0x80 (N.land c 0x3F)]
  else if c <? 0x10000 then
    if (0xD800 <=? c) && (c <=? 0xDFFF) then None
    else Some [N.lor 0xE0 (N.shiftr c 12);
               N.lor 0x80 (N.land (N.shiftr c 6) 0x3F);
               N.lor 0x80 (N.land c 0x3F)]
  else if c <? 0x110000 then
    Some [N.lor 0xF0 (N.shiftr c 18);
          N.lor 0x80 (N.land (N.shiftr c 12) 0x3F);
          N.lor 0x80 (N.land (N.shiftr c 6) 0x3F);
          N.lor 0x80 (N.land c 0x3F)]
  else None.

Fixpoint encode_opt (s : pystr) : option pybytes :=
  match s with
  | [] => Some []
  | c :: r =>
      match encode_char c, encode_opt r with
      | Some b, Some bs => Some (b ++ bs)
      | _, _ => None
      end
  end.

(** [s.encode('utf-8')] *)
Definition encode (s : pystr) : outcome pybytes :=
  match encode_opt s with
  | Some b => Ret b
  | None => Raise UnicodeEncodeError
  end.

End Utf8.

(** ** [hashlib.md5] *)

Module MD5.

Definition mask32 : N := 0xFFFFFFFF.
Definition add32 (a b : N) : N := (a + b) mod 0x100000000.
Definition not32 (x : N) : N := N.lxor (N.land x mask32) mask32.
Definition rotl32 (x s : N) : N :=
  N.land (N.lor (N.shiftl x s) (N.shiftr x (32 - s))) mask32.

Definition F (x y z : N) : N := N.lor (N.land x y) (N.land (not32 x) z).
Definition G (x y z : N) : N := N.lor (N.land x z) (N.land y (not32 z)).
Definition H (x y z : N) : N := N.lxor (N.lxor x y) z.
Definition I (x y z : N) : N := N.lxor y (N.lor x (not32 z)).

(** floor(2^32 * |sin(i+1)|), i = 0..63 *)
Definition K : list N :=
  [0xd76aa478; 0xe8c7b756; 0x242070db; 0xc1bdceee;
   0xf57c0faf; 0x4787c62a; 0xa8304613; 0xfd469501;
   0x698098d8; 0x8b44f7af; 0xffff5bb1; 0x895cd7be;
   0x6b901122; 0xfd987193; 0xa679438e; 0x49b40821;
   0xf61e2562; 0xc040b340; 0x265e5a51; 0xe9b6c7aa;
   0xd62f105d; 0x02441453; 0xd8a1e681; 0xe7d3fbc8;
   0x21e1cde6; 0xc33707d6; 0xf4d50d87; 0x455a14ed;
   0xa9e3e905; 0xfcefa3f8; 0x676f02d9; 0x8d2a4c8a;
   0xfffa3942; 0x8771f681; 0x6d9d6122; 0xfde5380c;
   0xa4beea44; 0x4bdecfa9; 0xf6bb4b60; 0xbebfbc70;
   0x289b7ec6; 0xeaa127fa; 0xd4ef3085; 0x04881d05;
   0xd9d4d039; 0xe6db99e5; 0x1fa27cf8; 0xc4ac5665;
   0xf4292244; 0x432aff97; 0xab9423a7; 0xfc93a039;
   0x655b59c3; 0x8f0ccc92; 0xffeff47d; 0x85845dd1;
   0x6fa87e4f; 0xfe2ce6e0; 0xa3014314; 0x4e0811a1;
   0xf7537e82; 0xbd3af235; 0x2ad7d2bb; 0xeb86d391].

(** per-round left rotations *)
Definition S : list N :=
  [7; 12; 17; 22; 7; 12; 17; 22; 7; 12; 17; 22; 7; 12; 17; 22;
   5; 9; 14; 20; 5; 9; 14; 20; 5; 9; 14; 20; 5; 9; 14; 20;
   4; 11; 16; 23; 4; 11; 16; 23; 4; 11; 16; 23; 4; 11; 16; 23;
   6; 10; 15; 21; 6; 10; 15; 21; 6; 10; 15; 21; 6; 10; 15; 21].

Record state : Type := St { sA : N; sB : N; sC : N; sD : N }.

Definition init : state :=
  St 0x67452301 0xefcdab89 0x98badcfe 0x10325476.

(** little-endian number of a byte list *)
Fixpoint le_to_N (bs : pybytes) : N :=
  match bs with
  | [] => 0
  | b :: r => b + 256 * le_to_N r
  end.

(** the [n] low bytes of [x], least significant first *)
Fixpoint N_to_le (n : nat) (x : N) : pybytes :=
  match n with
  | O => []
  | Datatypes.S k => x mod 256 :: N_to_le k (x / 256)
  end.

(** the sixteen 32-bit words of a 64-byte block *)
Fixpoint words (n : nat) (block : pybytes) : list N :=
  match n with
  | O => []
  | Datatypes.S k => le_to_N (take 4 block) :: words k (drop 4 block)
  end.

Definition step (M : list N) (i : N) (s : state) : state :=
  let '(St a b c d) := s in
  let '(f, g) :=
    if i <? 16 then (F b c d, i)
    else if i <? 32 then (G b c d, (5 * i + 1) mod 16)
    else if i <? 48 then (H b c d, (3 * i + 5) mod 16)
    else (I b c d, (7 * i) mod 16) in
  let x := add32 (add32 (add32 a f) (nth (N.to_nat i) K 0))
                 (nth (N.to_nat g) M 0) in
  St d (add32 b (rotl32 x (nth (N.to_nat i) S 0))) b c.

Fixpoint rounds (M : list N) (n : nat) (i : N) (s : state) : state :=
  match n with
  | O => s
  | Datatypes.S k => rounds M k (i + 1) (step M i s)
  end.

Definition compress (s : state) (block : pybytes) : state :=
  let r := rounds (words 16 block) 64 0 s in
  St (add32 (sA s) (sA r)) (add32 (sB s) (sB r))
     (add32 (sC s) (sC r)) (add32 (sD s) (sD r)).

(** message, 0x80, zeros up to 56 mod 64, bit length on 64 bits *)
Definition pad (msg : pybytes) : pybytes :=
  let len := N.of_nat (length msg) in
  let zeros := (119 - len mod 64) mod 64 in
  msg ++ [0x80] ++ repeat 0 (N.to_nat zeros)
      ++ N_to_le 8 ((8 * len) mod 0x10000000000000000).

Fixpoint blocks (n : nat) (msg : pybytes) (s : state) : state :=
  match n with
  | O => s
  | Datatypes.S k => blocks k (drop 64 msg) (compress s (take 64 msg))
  end.

(** [md5(msg).digest()] *)
Definition digest (msg : pybytes) : pybytes :=
  let p := pad msg in
  let s := blocks (length p / 64)%nat p init in
  N_to_le 4 (sA s) ++ N_to_le 4 (sB s) ++ N_to_le 4 (sC s) ++ N_to_le 4 (sD s).

Definition hexdigit (d : N) : N := if d <? 10 then 48 + d else 87 + d.

Definition hexbyte (b : N) : pystr := [hexdigit (b / 16); hexdigit (b mod 16)].

(** [md5(msg).hexdigest()] *)
Definition hexdigest (msg : pybytes) : pystr :=
  flat_map hexbyte (digest msg).

End MD5.

(** ** Python objects of the module *)

(** [bool(v)] *)
Definition truthy (v : value) : bool :=
  match v with
  | VNone => false
  | VBool b => b
  | VInt z => negb (Z.eqb z 0)
  | VStr s => negb (N.of_nat (length s) =? 0)
  | VList l => negb (N.of_nat (length l) =? 0)
  | VObj _ => true
  end.

(** [v is True]: identity with the singleton [True] *)
Definition is_True (v : value) : bool :=
  match v with
  | VBool true => true
  | _ => false
  end.

(** A callable: its identity and its [__name__] attribute, when it has one. *)
Record callable : Type := Callable {
  fn_id : N;
  __name__ : option pystr
}.

(** What [inspect.signature] returns: the formal parameter names. *)
Definition Signature : Type := list pystr.

(** Keyword arguments of a call. *)
Abbreviation kwargs_t := (gmap pystr value).

(** The arguments an app class is constructed with in [__call__]. *)
Record app_args : Type := AppArgs {
  a_func : callable;
  a_data_flow_kernel : value;
  a_executors : value;
  a_walltime : value;
  a_cache : value;
  a_fn_hash : pystr;
  a_auxiliary_files : value
}.

Inductive level : Type := DEBUG | ERROR.

Section Model.

(** The state of everything outside this module (files, the data flow
    kernel, the apps), and the type of app objects. *)
Context {Ext Inst : Type}.

(** [inspect.getsource] reads files; [inspect.signature] does not. *)
Variable getsource : callable -> Ext -> outcome pystr.
Variable signature : callable -> outcome Signature.

(** An app class: its name, its constructor and the [__call__] of its
    instances. *)
Record AppClass : Type := {
  cls_name : pystr;
  cls_new : app_args -> Ext -> outcome Inst * Ext;
  cls_call : Inst -> list value -> kwargs_t -> Ext -> outcome value * Ext
}.

(** [parsl.app.bash_app.BashApp] and [parsl.app.python_app.PythonApp],
    imported by the module *)
Variable BashApp PythonApp : AppClass.

(** The attributes of an [AppFactory] object. *)
Record AppFactory : Type := {
  name : pystr;                 (* self.__name__ *)
  app_class : AppClass;
  data_flow_kernel : value;
  func : callable;
  status : pystr;
  walltime : value;
  executors : value;
  sig : Signature;
  cache : value;
  auxiliary_files : value;
  func_hash : pystr
}.

Record AppFactoryFactory : Type := {
  ff_name : pystr;              (* self.name *)
  apps : gmap pystr AppClass
}.

Inductive event : Type :=
| Log (lvl : level) (fmt : pystr) (args : list value)
| Constructed (cls : AppClass) (a : app_args) (inst : Inst)
| Called (inst : Inst) (args : list value) (kwargs : kwargs_t).

Record world : Type := World {
  trace : list event;
  heap : gmap N AppFactory;
  ext : Ext
}.

(** *** The monad of the module's code *)

Definition M (A : Type) : Type := world -> outcome A * world.

Definition ret {A} (a : A) : M A := fun w => (Ret a, w).

Definition raise {A} (e : exn) : M A := fun w => (Raise e, w).

Definition bind {A B} (m : M A) (f : A -> M B) : M B :=
  fun w =>
    match m w with
    | (Ret a, w') => f a w'
    | (Raise e, w') => (Raise e, w')
    end.

Definition lift {A} (o : outcome A) : M A := fun w => (o, w).

(** [try: m except OSError: h] *)
Definition except_OSError {A} (m : M A) (h : M A) : M A :=
  fun w =>
    match m w with
    | (Raise OSError, w') => h w'
    | r => r
    end.

Definition emit (e : event) : M unit :=
  fun w => (Ret tt, World (trace w ++ [e]) (heap w) (ext w)).

Notation "x <- m ;; k" := (bind m (fun x => k))
  (at level 100, m at next level, right associativity).
Notation "m ;;; k" := (bind m (fun _ => k))
  (at level 100, right associativity).

(** [logger.debug(..)], [logger.error(..)] *)
Definition logger (lvl : level) (fmt : pystr) (args : list value) : M unit :=
  emit (Log lvl fmt args).

(** [func.__name__] *)
Definition getattr_name (f : callable) : M pystr :=
  match __name__ f with
  | Some n => ret n
  | None => raise AttributeError
  end.

(** [self.<attr>] for a factory object [self] *)
Definition deref (self : N) : M AppFactory :=
  fun w =>
    match heap w !! self with
    | Some fac => (Ret fac, w)
    | None => (Raise AttributeError, w)
    end.

(** a new object holding [fac] *)
Definition alloc (fac : AppFactory) : M N :=
  fun w =>
    let l := fresh (dom (heap w)) in
    (Ret l, World (trace w) (<[l := fac]> (heap w)) (ext w)).

(** [app_class(func, data_flow_kernel=.., ..)] *)
Definition construct (cls : AppClass) (a : app_args) : M Inst :=
  fun w =>
    match cls_new cls a (ext w) with
    | (Ret inst, e) =>
        (Ret inst, World (trace w ++ [Constructed cls a inst]) (heap w) e)
    | (Raise x, e) => (Raise x, World (trace w) (heap w) e)
    end.

(** the call of [app_obj] on the positional and keyword arguments *)
Definition invoke (cls : AppClass) (inst : Inst)
    (args : list value) (kwargs : kwargs_t) : M value :=
  fun w =>
    let '(r, e) := cls_call cls inst args kwargs (ext w) in
    (r, World (trace w ++ [Called inst args kwargs]) (heap w) e).

(** *** class AppFactory *)

Definition msg_no_source : pystr :=
  py "Unable to get source code for AppCaching. Recommend creating module".

(** [AppFactory.__init__], lines 40-61: the attributes of the new object *)
Definition AppFactory_init (app_class : AppClass) (func : callable)
    (data_flow_kernel cache executors walltime auxiliary_files : value)
    : M AppFactory :=
  nm <- getattr_name func ;;
  sg <- lift (signature func) ;;
  h <- (if is_True cache then
          fn_source <-
            except_OSError
              (fun w => (getsource func (ext w), w))
              (logger DEBUG msg_no_source [] ;;; getattr_name func) ;;
          b <- lift (Utf8.encode fn_source) ;;
          ret (MD5.hexdigest b)
        else getattr_name func) ;;
  ret {| name := nm;
         app_class := app_class;
         data_flow_kernel := data_flow_kernel;
         func := func;
         status := py "created";
         walltime := walltime;
         executors := executors;
         sig := sg;
         cache := cache;
         auxiliary_files := auxiliary_files;
         func_hash := h |}.

(** [AppFactory(app_class, func, data_flow_kernel, cache, executors,
    walltime, auxiliary_files)]: a new object, initialised *)
Definition AppFactory_new (app_class : AppClass) (func : callable)
    (data_flow_kernel cache executors walltime auxiliary_files : value)
    : M N :=
  fac <- AppFactory_init app_class func data_flow_kernel cache executors
           walltime auxiliary_files ;;
  alloc fac.

(** the keyword parameters of [AppFactory.__init__] *)
Definition init_keywords : list pystr :=
  [py "data_flow_kernel"; py "cache"; py "executors"; py "walltime";
   py "auxiliary_files"].

(** [AppFactory(app_class, func, **kw)]: keywords bound to the
    parameters, defaults for the missing ones, [TypeError] for a
    keyword that is no parameter *)
Definition AppFactory_apply (app_class : AppClass) (func : callable)
    (kw : kwargs_t) : M N :=
  if bool_decide (dom kw ⊆ list_to_set init_keywords) then
    AppFactory_new app_class func
      (default VNone (kw !! py "data_flow_kernel"))
      (default (VBool false) (kw !! py "cache"))
      (default (VStr (py "all")) (kw !! py "executors"))
      (default (VInt 60) (kw !! py "walltime"))
      (default VNone (kw !! py "auxiliary_files"))
  else raise TypeError.

(** [AppFactory.__call__], lines 78-85 *)
Definition AppFactory_call (self : N) (args : list value)
    (kwargs : kwargs_t) : M value :=
  fac <- deref self ;;
  app_obj <- construct (app_class fac)
               {| a_func := func fac;
                  a_data_flow_kernel := data_flow_kernel fac;
                  a_executors := executors fac;
                  a_walltime := walltime fac;
                  a_cache := cache fac;
                  a_fn_hash := func_hash fac;
                  a_auxiliary_files := auxiliary_files fac |} ;;
  invoke (app_class fac) app_obj args kwargs.

(** *** class AppFactoryFactory *)

(** [AppFactoryFactory.__init__] *)
Definition AppFactoryFactory_init (nm : pystr) : AppFactoryFactory :=
  {| ff_name := nm;
     apps := {[ py "bash" := BashApp; py "python" := PythonApp ]} |}.

Definition msg_invalid_kind : pystr :=
  py "AppFactory:%s Invalid app kind requested : %s ".

(** [AppFactoryFactory.make]; a [data_flow_kernel] among [kwargs] would
    be given twice in the call of line 138, which is a [TypeError] *)
Definition make (self : AppFactoryFactory) (kind : pystr) (func : callable)
    (data_flow_kernel : value) (kwargs : kwargs_t) : M N :=
  match apps self !! kind with
  | Some cls =>
      if bool_decide (is_Some (kwargs !! py "data_flow_kernel")) then
        raise TypeError
      else
        AppFactory_apply cls func
          (<[py "data_flow_kernel" := data_flow_kernel]> kwargs)
  | None =>
      logger ERROR msg_invalid_kind [VStr (ff_name self); VStr kind] ;;;
      raise (InvalidAppTypeError
               [VStr msg_invalid_kind; VStr (ff_name self); VStr kind])
  end.

(** A caller invoking the factory several times, whatever each call
    returns or raises. *)
Fixpoint call_all (self : N) (calls : list (list value * kwargs_t))
    (w : world) : list (outcome value) * world :=
  match calls with
  | [] => ([], w)
  | (args, kwargs) :: rest =>
      let '(r, w1) := AppFactory_call self args kwargs w in
      let '(rs, w2) := call_all self rest w1 in
      (r :: rs, w2)
  end.

End Model.

Arguments World {Ext Inst} trace heap ext.

(** The identity a construction yields: the [func_hash] of the object it
    returns, or the exception it raises. *)
Definition built_identity {Ext Inst : Type}
    (r : outcome N * @world Ext Inst) : outcome pystr :=
  match r with
  | (Ret l, w) =>
      match heap w !! l with
      | Some fac => Ret (func_hash fac)
      | None => Raise AttributeError
      end
  | (Raise e, _) => Raise e
  end.

(** An event that a call of the factory [fac] can leave: an app object of
    its class built from its attributes, a call, a log record. *)
Definition from_factory {Ext Inst : Type} (fac : @AppFactory Ext Inst)
    (e : @event Ext Inst) : Prop :=
  match e with
  | Constructed cls a _ =>
      cls = app_class fac /\
      a = {| a_func := func fac;
             a_data_flow_kernel := data_flow_kernel fac;
             a_executors := executors fac;
             a_walltime := walltime fac;
             a_cache := cache fac;
             a_fn_hash := func_hash fac;
             a_auxiliary_files := auxiliary_files fac |}
  | _ => True
  end.

(** When [cache is True], lines 53-59 raise nothing: the source text is
    there and encodable, or [getsource] raises [OSError] and the name is
    encodable. *)
Definition identity_computable {Ext : Type}
    (getsource : callable -> Ext -> outcome pystr)
    (func : callable) (cache : value) (e : Ext) : Prop :=
  is_True cache = true ->
  (exists src, getsource func e = Ret src /\ is_Some (Utf8.encode_opt src)) \/
  (getsource func e = Raise OSError /\
   exists n, __name__ func = Some n /\ is_Some (Utf8.encode_opt n)).

(** A character of a hex digest: one of 0-9, a-f. *)
Definition is_hexdigit (c : N) : Prop :=
  (48 <= c /\ c <= 57) \/ (97 <= c /\ c <= 102).

(** ** Stub app classes and callables *)

Module Stub.

(** An app object remembers what it was built from; the outside state
    counts the app objects built. *)
Record inst : Type := { i_args : app_args; i_serial : nat }.

Definition new (a : app_args) (e : nat) : outcome inst * nat :=
  (Ret {| i_args := a; i_serial := e |}, S e).

(** A call returns the positional arguments it received. *)
Definition call (i : inst) (args : list value) (kwargs : kwargs_t)
    (e : nat) : outcome value * nat :=
  (Ret (VList args), e).

Definition BashApp : @AppClass nat inst :=
  {| cls_name := py "BashApp"; cls_new := new; cls_call := call |}.

Definition PythonApp : @AppClass nat inst :=
  {| cls_name := py "PythonApp"; cls_new := new; cls_call := call |}.

(** a function defined in a module *)
Definition double : callable := Callable 1 (Some (py "double")).
(** a function typed at the prompt: no source file *)
Definition prompt_f : callable := Callable 2 (Some (py "f")).

Definition getsource (f : callable) (e : nat) : outcome pystr :=
  match fn_id f with
  | 1 => Ret (py "def double(x): return 2 * x")
  | 3 => Raise TypeError
  | _ => Raise OSError
  end.

Definition signature (f : callable) : outcome Signature :=
  Ret [py "x"].

Definition w0 : @world nat inst := World [] ∅ O.

Definition registry : @AppFactoryFactory nat inst :=
  AppFactoryFactory_init BashApp PythonApp (py "dfk_registry").

(** the factory [AppFactory(PythonApp, double, cache=True)] makes *)
Definition fac_double : @AppFactory nat inst :=
  {| name := py "double";
     app_class := PythonApp;
     data_flow_kernel := VNone;
     func := double;
     status := py "created";
     walltime := VInt 60;
     executors := VStr (py "all");
     sig := [py "x"];
     cache := VBool true;
     auxiliary_files := VNone;
     func_hash := py "c054adf36f4977e9da2984e6f9d6ac24" |}.

(** the state after that construction *)
Definition w_made : @world nat inst := World [] {[ 0 := fac_double ]} O.

End Stub.

(** ** Printing, and counting events *)

Section Printing.

Context {Ext Inst : Type}.

(** [AppFactory.__str__], lines 91-93.  [%s] of a [str] is that [str];
    [self.__class__.__name__] of an [AppFactory] object is "AppFactory";
    the character between the first two fields is the double quote,
    code point 34. *)
Definition AppFactory_str (self : N) : @M Ext Inst pystr :=
  bind (deref self) (fun fac =>
    ret (py "<class " ++ cls_name (app_class fac) ++ [34]
           ++ py "AppFactory" ++ py " for " ++ name fac ++ py ">")).

(** [AppFactory.__repr__], line 88 *)
Definition AppFactory_repr (self : N) : @M Ext Inst pystr :=
  AppFactory_str self.

(** the app objects built along a trace *)
Fixpoint constructions (t : list (@event Ext Inst)) : nat :=
  match t with
  | [] => O
  | Constructed _ _ _ :: r => Datatypes.S (constructions r)
  | _ :: r => constructions r
  end.

(** the app objects called along a trace *)
Fixpoint calls_made (t : list (@event Ext Inst)) : nat :=
  match t with
  | [] => O
  | Called _ _ _ :: r => Datatypes.S (calls_made r)
  | _ :: r => calls_made r
  end.

(** the records logged at a level along a trace *)
Fixpoint logged (lvl : level) (t : list (@event Ext Inst)) : nat :=
  match t with
  | [] => O
  | Log l _ _ :: r =>
      match l, lvl with
      | DEBUG, DEBUG | ERROR, ERROR => Datatypes.S (logged lvl r)
      | _, _ => logged lvl r
      end
  | _ :: r => logged lvl r
  end.

End Printing.

(** A code point [str.encode('utf-8')] accepts: below U+110000 and no
    surrogate. *)
Definition scalar_value (c : N) : Prop :=
  c < 0x110000 /\ ~ (0xD800 <= c /\ c <= 0xDFFF).

(** ** An app class that refuses its arguments *)

Module Refusing.

(** a constructor that raises [ValueError], leaving the outside state *)
Definition new (a : app_args) (e : nat) : outcome Stub.inst * nat :=
  (Raise ValueError, e).

Definition StrictApp : @AppClass nat Stub.inst :=
  {| cls_name := py "StrictApp"; cls_new := new; cls_call := Stub.call |}.

(** the factory [AppFactory(StrictApp, double)] makes *)
Definition fac_strict : @AppFactory nat Stub.inst :=
  {| name := py "double";
     app_class := StrictApp;
     data_flow_kernel := VNone;
     func := Stub.double;
     status := py "created";
     walltime := VInt 60;
     executors := VStr (py "all");
     sig := [py "x"];
     cache := VBool false;
     auxiliary_files := VNone;
     func_hash := py "double" |}.

(** a state with that factory and two of [Stub.fac_double] *)
Definition w_three : @world nat Stub.inst :=
  World [] {[ 0 := Stub.fac_double; 1 := Stub.fac_double; 2 := fac_strict ]} O.

End Refusing.

(** ** Reading UTF-8 back *)

(** The code point that the bytes of one encoded character stand for. *)
Definition decode_char (bs : pybytes) : N :=
  match bs with
  | [b0] => b0
  | [b0; b1] => (b0 - 0xC0) * 64 + (b1 - 0x80)
  | [b0; b1; b2] => (b0 - 0xE0) * 4096 + (b1 - 0x80) * 64 + (b2 - 0x80)
  | [b0; b1; b2; b3] =>
      (b0 - 0xF0) * 262144 + (b1 - 0x80) * 4096 + (b2 - 0x80) * 64
      + (b3 - 0x80)
  | _ => 0
  end.

(** The number of bytes of the character that starts with byte [b0]. *)
Definition lead_length (b0 : N) : nat :=
  if b0 <? 0x80 then 1 else if b0 <? 0xE0 then 2
  else if b0 <? 0xF0 then 3 else 4.

(** What is checked of the encoding of each code point: the bytes are
    bytes, as many as the first one announces, and they read back as the
    code point. *)
Definition char_checked (c : N) : bool :=
  match Utf8.encode_char c with
  | None => true
  | Some bs =>
      (decode_char bs =? c)
      && forallb (fun b => b <? 256) bs
      && match bs with
         | b0 :: _ => Nat.eqb (length bs) (lead_length b0)
         | [] => false
         end
  end.

(** [P] on the [2 ^ depth] numbers from [lo] on. *)
Fixpoint range_all (depth : nat) (lo : N) (P : N -> bool) : bool :=
  match depth with
  | O => P lo
  | Datatypes.S d =>
      range_all d lo P && range_all d (lo + 2 ^ N.of_nat d) P
  end.

(** * Properties *)

(** ** The digest *)

Lemma N_to_le_length (n : nat) (x : N) : length (MD5.N_to_le n x) = n.
Proof. revert x. induction n as [|n IH]; intros x; simpl; [reflexivity|]. now rewrite IH. Qed.

Lemma digest_length (msg : pybytes) : length (MD5.digest msg) = 16%nat.
Proof.
  unfold MD5.digest. cbv zeta.
  rewrite !length_app, !N_to_le_length. reflexivity.
Qed.

Lemma flat_map_hexbyte_length (bs : pybytes) :
  length (flat_map MD5.hexbyte bs) = (2 * length bs)%nat.
Proof. induction bs as [|b bs IH]; simpl; [reflexivity|]. rewrite IH. lia. Qed.

(** The hex digest is 32 characters: 128 bits. *)
Lemma hexdigest_length (msg : pybytes) : length (MD5.hexdigest msg) = 32%nat.
Proof.
  unfold MD5.hexdigest. now rewrite flat_map_hexbyte_length, digest_length.
Qed.

Lemma N_to_le_bytes (n : nat) (x : N) : Forall (fun b => b < 256) (MD5.N_to_le n x).
Proof.
  revert x. induction n as [|n IH]; intros x; simpl; constructor.
  - now apply N.mod_lt.
  - apply IH.
Qed.

Lemma digest_bytes (msg : pybytes) : Forall (fun b => b < 256) (MD5.digest msg).
Proof.
  unfold MD5.digest. cbv zeta.
  repeat (apply Forall_app; split); apply N_to_le_bytes.
Qed.

Lemma hexdigit_is_hex (d : N) : d < 16 -> is_hexdigit (MD5.hexdigit d).
Proof.
  intros Hd. unfold MD5.hexdigit, is_hexdigit.
  destruct (N.ltb_spec d 10); lia.
Qed.

(** The hex digest is written with the characters 0-9 and a-f. *)
Lemma hexdigest_is_hex (msg : pybytes) : Forall is_hexdigit (MD5.hexdigest msg).
Proof.
  unfold MD5.hexdigest.
  pose proof (digest_bytes msg) as Hb.
  induction Hb as [|b bs Hlt _ IH]; simpl; [constructor|].
  constructor; [|constructor; [|exact IH]]; apply hexdigit_is_hex.
  - apply N.Div0.div_lt_upper_bound. lia.
  - now apply N.mod_lt.
Qed.

(** RFC 1321 test suite *)

Example md5_empty :
  MD5.hexdigest [] = py "d41d8cd98f00b204e9800998ecf8427e".
Proof. vm_compute. reflexivity. Qed.

Example md5_a :
  MD5.hexdigest (py "a") = py "0cc175b9c0f1b6a831c399e269772661".
Proof. vm_compute. reflexivity. Qed.

Example md5_abc :
  MD5.hexdigest (py "abc") = py "900150983cd24fb0d6963f7d28e17f72".
Proof. vm_compute. reflexivity. Qed.

Example md5_message_digest :
  MD5.hexdigest (py "message digest") = py "f96b697d7cb7938d525a2f31aaf161d0".
Proof. vm_compute. reflexivity. Qed.

Example md5_two_blocks :
  MD5.hexdigest
    (py "12345678901234567890123456789012345678901234567890123456789012345678901234567890")
  = py "57edf4a22be3c955ac49da2e2107b67a".
Proof. vm_compute. reflexivity. Qed.

Section Construction.

Context {Ext Inst : Type}.
Variable getsource : callable -> Ext -> outcome pystr.
Variable signature : callable -> outcome Signature.

Implicit Types (cls : @AppClass Ext Inst) (w : @world Ext Inst)
  (func : callable) (dfk cache ex wt aux : value).

Local Ltac run :=
  unfold AppFactory_new, AppFactory_init, bind, lift, ret, raise,
    getattr_name, except_OSError, logger, emit, alloc; simpl.

(** Lines 60-61: without [cache is True] the name is the identity. *)
Lemma AppFactory_init_uncached cls func dfk cache ex wt aux w nm sg :
  __name__ func = Some nm ->
  signature func = Ret sg ->
  is_True cache = false ->
  AppFactory_init getsource signature cls func dfk cache ex wt aux w =
    (Ret {| name := nm; app_class := cls; data_flow_kernel := dfk;
            func := func; status := py "created"; walltime := wt;
            executors := ex; sig := sg; cache := cache;
            auxiliary_files := aux; func_hash := nm |}, w).
Proof.
  intros Hn Hs Hc. run. now rewrite Hn, Hs, Hc.
Qed.

(** Lines 53-59 when [getsource] returns the text. *)
Lemma AppFactory_init_source cls func dfk ex wt aux w nm sg src b :
  __name__ func = Some nm ->
  signature func = Ret sg ->
  getsource func (ext w) = Ret src ->
  Utf8.encode src = Ret b ->
  AppFactory_init getsource signature cls func dfk (VBool true) ex wt aux w =
    (Ret {| name := nm; app_class := cls; data_flow_kernel := dfk;
            func := func; status := py "created"; walltime := wt;
            executors := ex; sig := sg; cache := VBool true;
            auxiliary_files := aux; func_hash := MD5.hexdigest b |}, w).
Proof.
  intros Hn Hs Hg Hb. run. rewrite Hn, Hs. simpl. rewrite Hg. simpl.
  now rewrite Hb.
Qed.

(** Lines 53-59 when [getsource] raises [OSError]. *)
Lemma AppFactory_init_nosource cls func dfk ex wt aux w nm sg b :
  __name__ func = Some nm ->
  signature func = Ret sg ->
  getsource func (ext w) = Raise OSError ->
  Utf8.encode nm = Ret b ->
  AppFactory_init getsource signature cls func dfk (VBool true) ex wt aux w =
    (Ret {| name := nm; app_class := cls; data_flow_kernel := dfk;
            func := func; status := py "created"; walltime := wt;
            executors := ex; sig := sg; cache := VBool true;
            auxiliary_files := aux; func_hash := MD5.hexdigest b |},
     World (trace w ++ [Log DEBUG msg_no_source []]) (heap w) (ext w)).
Proof.
  intros Hn Hs Hg Hb. run. rewrite Hn, Hs. simpl. rewrite Hg. simpl.
  now rewrite Hb.
Qed.


(** What [AppFactory(..)] does once [__init__] has filled the object. *)
Lemma AppFactory_new_of_init cls func dfk cache ex wt aux w fac w1 :
  AppFactory_init getsource signature cls func dfk cache ex wt aux w =
    (Ret fac, w1) ->
  AppFactory_new getsource signature cls func dfk cache ex wt aux w =
    (Ret (fresh (dom (heap w1))),
     World (trace w1) (<[fresh (dom (heap w1)) := fac]> (heap w1)) (ext w1)).
Proof.
  intros H. unfold AppFactory_new, bind. rewrite H. reflexivity.
Qed.


(** The new object is new, and holds what [__init__] gave it. *)
Lemma alloc_fresh (h : gmap N (@AppFactory Ext Inst)) fac :
  h !! fresh (dom h) = None /\ <[fresh (dom h) := fac]> h !! fresh (dom h) = Some fac.
Proof.
  split; [|apply lookup_insert_eq].
  apply not_elem_of_dom. apply is_fresh.
Qed.

End Construction.

Section Identity.

Context {Ext Inst : Type}.
Variable getsource : callable -> Ext -> outcome pystr.
Variable signature : callable -> outcome Signature.

Implicit Types (cls : @AppClass Ext Inst) (w : @world Ext Inst)
  (func : callable) (dfk cache ex wt aux : value).

Local Abbreviation new := (AppFactory_new getsource signature).
Local Abbreviation init := (AppFactory_init getsource signature).

(** A construction whose [__init__] returns gives a new object with
    exactly the attributes [__init__] set. *)
Lemma new_built cls func dfk cache ex wt aux w fac w1 :
  init cls func dfk cache ex wt aux w = (Ret fac, w1) ->
  exists self w',
    new cls func dfk cache ex wt aux w = (Ret self, w') /\
    heap w' !! self = Some fac /\
    heap w1 !! self = None /\
    trace w' = trace w1 /\ ext w' = ext w1.
Proof.
  intros H. eexists _, _. split; [apply AppFactory_new_of_init, H|].
  simpl. destruct (alloc_fresh (heap w1) fac) as [Hf Hi]. auto.
Qed.

(** C1: with caching enabled and the source text [src] recovered, the
    new factory's [func_hash] is the hex MD5 digest (32 characters, 128
    bits) of the UTF-8 encoding of [src]; a second construction that
    recovers the same text, in any other state and with any other
    arguments, gets the same [func_hash]. *)
Theorem C1_identity_is_md5_of_source
    cls1 cls2 f1 f2 dfk1 dfk2 ex1 ex2 wt1 wt2 aux1 aux2 w1 w2
    n1 n2 sg1 sg2 src b :
  __name__ f1 = Some n1 -> signature f1 = Ret sg1 ->
  __name__ f2 = Some n2 -> signature f2 = Ret sg2 ->
  getsource f1 (ext w1) = Ret src ->
  getsource f2 (ext w2) = Ret src ->
  Utf8.encode src = Ret b ->
  exists l1 w1' fac1 l2 w2' fac2,
    new cls1 f1 dfk1 (VBool true) ex1 wt1 aux1 w1 = (Ret l1, w1') /\
    heap w1' !! l1 = Some fac1 /\
    new cls2 f2 dfk2 (VBool true) ex2 wt2 aux2 w2 = (Ret l2, w2') /\
    heap w2' !! l2 = Some fac2 /\
    func_hash fac1 = MD5.hexdigest b /\
    func_hash fac2 = func_hash fac1 /\
    length (func_hash fac1) = 32%nat.
Proof.
  intros Hn1 Hs1 Hn2 Hs2 Hg1 Hg2 Hb.
  destruct (new_built cls1 f1 dfk1 (VBool true) ex1 wt1 aux1 w1 _ _
              (AppFactory_init_source getsource signature cls1 f1 dfk1 ex1
                 wt1 aux1 w1 n1 sg1 src b Hn1 Hs1 Hg1 Hb))
    as (l1 & w1' & E1 & L1 & _).
  destruct (new_built cls2 f2 dfk2 (VBool true) ex2 wt2 aux2 w2 _ _
              (AppFactory_init_source getsource signature cls2 f2 dfk2 ex2
                 wt2 aux2 w2 n2 sg2 src b Hn2 Hs2 Hg2 Hb))
    as (l2 & w2' & E2 & L2 & _).
  eexists l1, w1', _, l2, w2', _.
  split; [exact E1|]. split; [exact L1|].
  split; [exact E2|]. split; [exact L2|].
  split; [reflexivity|]. split; [reflexivity|].
  exact (hexdigest_length b).
Qed.

(** C2, as the code has it: with caching enabled and [getsource]
    raising [OSError], the new factory's [func_hash] is the hex MD5
    digest of the UTF-8 encoding of the display name, not the name; the
    debug record is logged. *)
Theorem C2_identity_is_md5_of_name cls func dfk ex wt aux w nm sg b :
  __name__ func = Some nm ->
  signature func = Ret sg ->
  getsource func (ext w) = Raise OSError ->
  Utf8.encode nm = Ret b ->
  exists self w' fac,
    new cls func dfk (VBool true) ex wt aux w = (Ret self, w') /\
    heap w' !! self = Some fac /\
    func_hash fac = MD5.hexdigest b /\
    trace w' = trace w ++ [Log DEBUG msg_no_source []].
Proof.
  intros Hn Hs Hg Hb.
  destruct (new_built cls func dfk (VBool true) ex wt aux w _ _
              (AppFactory_init_nosource getsource signature cls func dfk ex
                 wt aux w nm sg b Hn Hs Hg Hb))
    as (l & w' & E & L & _ & T & _).
  eexists l, w', _.
  split; [exact E|]. split; [exact L|]. split; [reflexivity|exact T].
Qed.

(** C3: with [cache=False] the new factory's [func_hash] is the
    display name, whatever [getsource] would return. *)
Theorem C3_uncached_identity_is_name cls func dfk ex wt aux w nm sg :
  __name__ func = Some nm ->
  signature func = Ret sg ->
  exists self w' fac,
    new cls func dfk (VBool false) ex wt aux w = (Ret self, w') /\
    heap w' !! self = Some fac /\
    name fac = nm /\
    func_hash fac = nm.
Proof.
  intros Hn Hs.
  destruct (new_built cls func dfk (VBool false) ex wt aux w _ _
              (AppFactory_init_uncached getsource signature cls func dfk
                 (VBool false) ex wt aux w nm sg Hn Hs eq_refl))
    as (l & w' & E & L & _).
  eexists l, w', _.
  split; [exact E|]. split; [exact L|]. split; reflexivity.
Qed.


(** C9: two constructions for the same callable and the same [cache],
    in states where [getsource] has the same outcome, end the same way:
    both return a factory and the two [func_hash] are equal, or both
    raise the same exception. *)
Theorem C9_identity_reproducible
    cls1 cls2 func dfk1 dfk2 cache ex1 ex2 wt1 wt2 aux1 aux2 w1 w2 :
  getsource func (ext w1) = getsource func (ext w2) ->
  built_identity (new cls1 func dfk1 cache ex1 wt1 aux1 w1) =
  built_identity (new cls2 func dfk2 cache ex2 wt2 aux2 w2).
Proof.
  intros Hg.
  unfold built_identity, AppFactory_new, AppFactory_init, bind, lift, ret,
    raise, getattr_name, except_OSError, logger, emit, alloc.
  destruct (__name__ func) as [nm|]; simpl; [|reflexivity].
  destruct (signature func) as [sg|e]; simpl; [|reflexivity].
  destruct (is_True cache); simpl.
  - rewrite <- Hg.
    destruct (getsource func (ext w1)) as [src|e]; simpl.
    + destruct (Utf8.encode src); simpl; [|reflexivity].
      now rewrite !lookup_insert_eq.
    + destruct e; simpl; try reflexivity.
      destruct (Utf8.encode nm); simpl; [|reflexivity].
      now rewrite !lookup_insert_eq.
  - now rewrite !lookup_insert_eq.
Qed.

(** [built_identity] is [Ret h] exactly when the construction returned
    an object whose [func_hash] is [h]. *)
Lemma built_identity_Ret (r : outcome N * @world Ext Inst) h :
  built_identity r = Ret h <->
  exists self w' fac,
    r = (Ret self, w') /\ heap w' !! self = Some fac /\ func_hash fac = h.
Proof.
  destruct r as [[l|e] w']; simpl; split.
  - destruct (heap w' !! l) as [fac|] eqn:E; [|discriminate].
    intros [= <-]. exists l, w', fac. auto.
  - intros (s & w2 & fac & [= <- <-] & L & <-). now rewrite L.
  - discriminate.
  - intros (s & w2 & fac & [=] & _).
Qed.

End Identity.

Section Registry.

Context {Ext Inst : Type}.
Variable getsource : callable -> Ext -> outcome pystr.
Variable signature : callable -> outcome Signature.
Variable BashApp PythonApp : @AppClass Ext Inst.

Implicit Types (cls : @AppClass Ext Inst) (w : @world Ext Inst)
  (f : callable) (dfk : value) (kwargs : kwargs_t) (kind nm : pystr).

Local Abbreviation new := (AppFactory_new getsource signature).
Local Abbreviation init := (AppFactory_init getsource signature).
Local Abbreviation registry_named := (AppFactoryFactory_init BashApp PythonApp).

Lemma is_True_inv (v : value) : is_True v = true -> v = VBool true.
Proof. destruct v as [| [|] | | | |]; simpl; congruence. Qed.

(** The kind table of line 115. *)
Lemma apps_lookup nm kind :
  apps (registry_named nm) !! kind =
    if decide (kind = py "bash") then Some BashApp
    else if decide (kind = py "python") then Some PythonApp
    else None.
Proof.
  unfold AppFactoryFactory_init. cbn [apps].
  destruct (decide (kind = py "bash")) as [->|Hb].
  - apply lookup_insert_eq.
  - rewrite lookup_insert_ne by congruence.
    destruct (decide (kind = py "python")) as [->|Hp].
    + apply lookup_singleton_eq.
    + apply lookup_singleton_ne. congruence.
Qed.

(** [__init__] returns whenever the callable has a name and a signature
    and the identity is computable; it leaves the heap alone. *)
Lemma AppFactory_init_total cls f dfk c ex wt aux w n sg :
  __name__ f = Some n ->
  signature f = Ret sg ->
  identity_computable getsource f c (ext w) ->
  exists h w1,
    init cls f dfk c ex wt aux w =
      (Ret {| name := n; app_class := cls; data_flow_kernel := dfk;
              func := f; status := py "created"; walltime := wt;
              executors := ex; sig := sg; cache := c;
              auxiliary_files := aux; func_hash := h |}, w1) /\
    heap w1 = heap w.
Proof.
  intros Hn Hs Hc. destruct (is_True c) eqn:Ec.
  - pose proof (is_True_inv _ Ec) as ->.
    destruct (Hc eq_refl) as [(src & Hg & [b Hb]) | (Hg & n' & Hn' & [b Hb])].
    + eexists _, _. split.
      * eapply AppFactory_init_source; eauto.
        unfold Utf8.encode. now rewrite Hb.
      * reflexivity.
    + assert (n' = n) as -> by congruence.
      eexists _, _. split.
      * eapply AppFactory_init_nosource; eauto.
        unfold Utf8.encode. now rewrite Hb.
      * reflexivity.
  - eexists _, _. split.
    + eapply AppFactory_init_uncached; eauto.
    + reflexivity.
Qed.

(** [__init__] raises no [InvalidAppTypeError] of its own. *)
Lemma AppFactory_init_no_invalid cls f dfk c ex wt aux w e w1 :
  (forall a, signature f <> Raise (InvalidAppTypeError a)) ->
  (forall a, getsource f (ext w) <> Raise (InvalidAppTypeError a)) ->
  init cls f dfk c ex wt aux w = (Raise e, w1) ->
  forall a, e <> InvalidAppTypeError a.
Proof.
  intros Hs Hg.
  unfold AppFactory_init, bind, lift, ret, raise, getattr_name,
    except_OSError, logger, emit.
  destruct (__name__ f) as [n|]; simpl; [|intros [= <- _]; discriminate].
  destruct (signature f) as [sg|e0] eqn:Es; simpl;
    [|intros [= <- _] a ->; eapply Hs; reflexivity].
  destruct (is_True c); simpl; [|discriminate].
  destruct (getsource f (ext w)) as [src|e0] eqn:Eg; simpl.
  - destruct (Utf8.encode src) eqn:Ee; simpl; [discriminate|].
    unfold Utf8.encode in Ee. destruct (Utf8.encode_opt src); [discriminate|].
    injection Ee as <-. intros [= <- _]. discriminate.
  - destruct e0; simpl;
      try (intros [= <- _]; discriminate);
      try (intros [= <- _] a' [= ->]; eapply Hg; reflexivity).
    destruct (Utf8.encode n) eqn:Ee; simpl; [discriminate|].
    unfold Utf8.encode in Ee. destruct (Utf8.encode_opt n); [discriminate|].
    injection Ee as <-. intros [= <- _]. discriminate.
Qed.

(** [make] on a kind outside the table. *)
Lemma make_unregistered nm kind f dfk kwargs w :
  kind <> py "bash" -> kind <> py "python" ->
  make getsource signature (registry_named nm) kind f dfk kwargs w =
    (Raise (InvalidAppTypeError [VStr msg_invalid_kind; VStr nm; VStr kind]),
     World (trace w ++ [Log ERROR msg_invalid_kind [VStr nm; VStr kind]])
           (heap w) (ext w)).
Proof.
  intros Hb Hp. unfold make. rewrite apps_lookup.
  destruct (decide (kind = py "bash")); [contradiction|].
  destruct (decide (kind = py "python")); [contradiction|].
  reflexivity.
Qed.

(** [make] on a kind of the table: the call of line 138. *)
Lemma make_registered nm kind cls f dfk kwargs w :
  (kind = py "bash" /\ cls = BashApp) \/
  (kind = py "python" /\ cls = PythonApp) ->
  make getsource signature (registry_named nm) kind f dfk kwargs w =
    if bool_decide (is_Some (kwargs !! py "data_flow_kernel")) then
      (Raise TypeError, w)
    else
      AppFactory_apply getsource signature cls f
        (<[py "data_flow_kernel" := dfk]> kwargs) w.
Proof.
  intros [[-> ->] | [-> ->]]; unfold make; rewrite apps_lookup.
  - destruct (decide (py "bash" = py "bash")); [|contradiction].
    now destruct (bool_decide _).
  - destruct (decide (py "python" = py "bash")); [discriminate|].
    destruct (decide (py "python" = py "python")); [|contradiction].
    now destruct (bool_decide _).
Qed.

(** C4: for a kind that is neither "bash" nor "python", [make] logs at
    error level and raises [InvalidAppTypeError] carrying the registry
    name and the kind; no factory is made (the heap is as before).
    Provided [inspect] raises no [InvalidAppTypeError] itself, [make]
    raises one exactly for those kinds. *)
Theorem C4_invalid_kind_iff_unregistered nm kind f dfk kwargs w :
  (forall a, signature f <> Raise (InvalidAppTypeError a)) ->
  (forall a, getsource f (ext w) <> Raise (InvalidAppTypeError a)) ->
  let r := make getsource signature (registry_named nm) kind f dfk kwargs w in
  (kind <> py "bash" /\ kind <> py "python" ->
     r.1 = Raise (InvalidAppTypeError
                    [VStr msg_invalid_kind; VStr nm; VStr kind]) /\
     heap r.2 = heap w /\
     trace r.2 = trace w ++ [Log ERROR msg_invalid_kind [VStr nm; VStr kind]]) /\
  ((exists a, r.1 = Raise (InvalidAppTypeError a)) <->
     kind <> py "bash" /\ kind <> py "python").
Proof.
  intros Hs Hg r. split; [|split].
  - intros [Hb Hp]. subst r. rewrite make_unregistered by assumption.
    repeat split.
  - intros [a Ha].
    assert (forall cls,
      (kind = py "bash" /\ cls = BashApp) \/
      (kind = py "python" /\ cls = PythonApp) -> False) as Hno.
    { intros cls Hk. subst r.
      rewrite (make_registered nm kind cls f dfk kwargs w Hk) in Ha.
      destruct (bool_decide _); [discriminate|].
      unfold AppFactory_apply in Ha.
      destruct (bool_decide _); [|discriminate].
      unfold AppFactory_new, bind in Ha.
      destruct (AppFactory_init _ _ _ _ _ _ _ _ _ _) as [[fac|e] w1] eqn:Ei;
        [discriminate|].
      simpl in Ha. injection Ha as ->.
      eapply AppFactory_init_no_invalid; eauto. }
    split; intros ->; eapply Hno; eauto.
  - intros [Hb Hp]. subst r. rewrite make_unregistered by assumption.
    eexists. reflexivity.
Qed.

(** C5: for "bash" and "python", with keywords among [cache],
    [executors], [walltime], [auxiliary_files] and a callable that can
    be constructed from, [make] returns a new [AppFactory] whose class
    is [BashApp], resp. [PythonApp], and whose callable, data flow
    kernel and keyword parameters are those given to [make]; it is the
    object [AppFactory(cls, func, ..)] returns on those arguments. *)
Theorem C5_registered_kind_builds_factory nm kind cls f dfk kwargs w n sg :
  (kind = py "bash" /\ cls = BashApp) \/
  (kind = py "python" /\ cls = PythonApp) ->
  dom kwargs ⊆ list_to_set [py "cache"; py "executors"; py "walltime";
                            py "auxiliary_files"] ->
  __name__ f = Some n ->
  signature f = Ret sg ->
  identity_computable getsource f
    (default (VBool false) (kwargs !! py "cache")) (ext w) ->
  exists self w' fac,
    make getsource signature (registry_named nm) kind f dfk kwargs w =
      (Ret self, w') /\
    heap w !! self = None /\
    heap w' !! self = Some fac /\
    app_class fac = cls /\
    func fac = f /\
    data_flow_kernel fac = dfk /\
    cache fac = default (VBool false) (kwargs !! py "cache") /\
    executors fac = default (VStr (py "all")) (kwargs !! py "executors") /\
    walltime fac = default (VInt 60) (kwargs !! py "walltime") /\
    auxiliary_files fac = default VNone (kwargs !! py "auxiliary_files") /\
    make getsource signature (registry_named nm) kind f dfk kwargs w =
      new cls f dfk
        (default (VBool false) (kwargs !! py "cache"))
        (default (VStr (py "all")) (kwargs !! py "executors"))
        (default (VInt 60) (kwargs !! py "walltime"))
        (default VNone (kwargs !! py "auxiliary_files")) w.
Proof.
  intros Hk Hdom Hn Hs Hc.
  assert (kwargs !! py "data_flow_kernel" = None) as Hnone.
  { apply not_elem_of_dom. intros Hin. apply Hdom in Hin.
    set_unfold in Hin. intuition discriminate. }
  assert (make getsource signature (registry_named nm) kind f dfk kwargs w =
          new cls f dfk
            (default (VBool false) (kwargs !! py "cache"))
            (default (VStr (py "all")) (kwargs !! py "executors"))
            (default (VInt 60) (kwargs !! py "walltime"))
            (default VNone (kwargs !! py "auxiliary_files")) w) as Hmake.
  { rewrite (make_registered nm kind cls f dfk kwargs w Hk).
    rewrite bool_decide_eq_false_2
      by (rewrite Hnone; intros [? [=]]).
    unfold AppFactory_apply.
    rewrite bool_decide_eq_true_2.
    - rewrite lookup_insert_eq.
      rewrite !lookup_insert_ne by discriminate. reflexivity.
    - rewrite dom_insert_L. intros x Hx.
      apply elem_of_union in Hx as [Hx|Hx].
      + apply elem_of_singleton in Hx as ->. set_unfold. auto.
      + apply Hdom in Hx. set_unfold in Hx. set_unfold. tauto. }
  destruct (AppFactory_init_total cls f dfk _
              (default (VStr (py "all")) (kwargs !! py "executors"))
              (default (VInt 60) (kwargs !! py "walltime"))
              (default VNone (kwargs !! py "auxiliary_files"))
              w n sg Hn Hs Hc) as (h & w1 & Hi & Hh).
  destruct (new_built getsource signature _ _ _ _ _ _ _ _ _ _ Hi)
    as (l & w' & E & L & F & _).
  eexists l, w', _. rewrite Hmake.
  split; [exact E|]. split; [now rewrite <- Hh|]. split; [exact L|].
  repeat split.
Qed.

End Registry.

Section Invocation.

Context {Ext Inst : Type}.
Variable getsource : callable -> Ext -> outcome pystr.
Variable signature : callable -> outcome Signature.

Implicit Types (cls : @AppClass Ext Inst) (w : @world Ext Inst)
  (fac : @AppFactory Ext Inst) (f : callable) (dfk c ex wt aux : value)
  (args : list value) (kwargs : kwargs_t).

Local Abbreviation new := (AppFactory_new getsource signature).

(** the arguments line 78-84 build the app object from *)
Local Abbreviation forwarded fac :=
  {| a_func := func fac;
     a_data_flow_kernel := data_flow_kernel fac;
     a_executors := executors fac;
     a_walltime := walltime fac;
     a_cache := cache fac;
     a_fn_hash := func_hash fac;
     a_auxiliary_files := auxiliary_files fac |}.

Lemma is_True_false c : c <> VBool true -> is_True c = false.
Proof. destruct c as [| [|] | | | |]; simpl; congruence. Qed.

(** A construction that returned went through [__init__]. *)
Lemma new_inv cls f dfk c ex wt aux w0 self w :
  new cls f dfk c ex wt aux w0 = (Ret self, w) ->
  exists fac w1,
    AppFactory_init getsource signature cls f dfk c ex wt aux w0 =
      (Ret fac, w1) /\
    heap w !! self = Some fac /\
    trace w = trace w1.
Proof.
  unfold AppFactory_new, bind, alloc.
  destruct (AppFactory_init _ _ _ _ _ _ _ _ _ _) as [[fac|e] w1];
    [|discriminate].
  intros [= <- <-]. exists fac, w1. simpl.
  split; [reflexivity|]. split; [apply lookup_insert_eq|reflexivity].
Qed.

(** One call, when the app class constructor returns. *)
Lemma AppFactory_call_returns self fac args kwargs w inst e1 :
  heap w !! self = Some fac ->
  cls_new (app_class fac) (forwarded fac) (ext w) = (Ret inst, e1) ->
  AppFactory_call self args kwargs w =
    ((cls_call (app_class fac) inst args kwargs e1).1,
     World (trace w ++ [Constructed (app_class fac) (forwarded fac) inst;
                        Called inst args kwargs])
           (heap w)
           (cls_call (app_class fac) inst args kwargs e1).2).
Proof.
  intros Hh Hc.
  unfold AppFactory_call, bind, deref, construct, invoke.
  rewrite Hh, Hc. simpl.
  destruct (cls_call _ _ _ _ _) as [r e2]. simpl.
  now rewrite <- app_assoc.
Qed.

(** One call, when the app class constructor raises: the exception
    leaves [__call__], nothing is called. *)
Lemma AppFactory_call_raises self fac args kwargs w x e1 :
  heap w !! self = Some fac ->
  cls_new (app_class fac) (forwarded fac) (ext w) = (Raise x, e1) ->
  AppFactory_call self args kwargs w =
    (Raise x, World (trace w) (heap w) e1).
Proof.
  intros Hh Hc.
  unfold AppFactory_call, bind, deref, construct, invoke.
  now rewrite Hh, Hc.
Qed.

(** One call changes no object and leaves only events of the factory. *)
Lemma AppFactory_call_frame self fac args kwargs w :
  heap w !! self = Some fac ->
  heap (AppFactory_call self args kwargs w).2 = heap w /\
  exists evs,
    trace (AppFactory_call self args kwargs w).2 = trace w ++ evs /\
    Forall (from_factory fac) evs.
Proof.
  intros Hh.
  destruct (cls_new (app_class fac) (forwarded fac) (ext w))
    as [[inst|x] e1] eqn:Hc.
  - rewrite (AppFactory_call_returns self fac args kwargs w inst e1 Hh Hc).
    simpl. split; [reflexivity|]. eexists. split; [reflexivity|].
    repeat constructor.
  - rewrite (AppFactory_call_raises self fac args kwargs w x e1 Hh Hc).
    simpl. split; [reflexivity|]. exists []. split; [now rewrite app_nil_r|].
    constructor.
Qed.

(** Any number of calls change no object and leave only events of the
    factory. *)
Lemma call_all_frame self fac calls w :
  heap w !! self = Some fac ->
  heap (call_all self calls w).2 = heap w /\
  exists evs,
    trace (call_all self calls w).2 = trace w ++ evs /\
    Forall (from_factory fac) evs.
Proof.
  revert w. induction calls as [|[args kwargs] rest IH]; intros w Hh.
  - simpl. split; [reflexivity|]. exists []. split; [now rewrite app_nil_r|].
    constructor.
  - simpl.
    destruct (AppFactory_call_frame self fac args kwargs w Hh)
      as (H1 & evs1 & T1 & F1).
    destruct (AppFactory_call self args kwargs w) as [r w1]. simpl in *.
    assert (heap w1 !! self = Some fac) as Hh1 by now rewrite H1.
    destruct (IH w1 Hh1) as (H2 & evs2 & T2 & F2).
    destruct (call_all self rest w1) as [rs w2]. simpl in *.
    split; [congruence|].
    exists (evs1 ++ evs2). split.
    + now rewrite T2, T1, app_assoc.
    + now apply Forall_app.
Qed.

(** C6: a call of the factory, when the app class constructor returns,
    builds one object of [app_class] from the callable, the data flow
    kernel, the executors, the walltime, the cache flag, [func_hash]
    and the auxiliary files of the factory, calls it on the arguments
    given, and returns (or raises) what that call does. *)
Theorem C6_call_builds_one_app_and_calls_it
    self fac args kwargs w inst e1 :
  heap w !! self = Some fac ->
  cls_new (app_class fac)
    {| a_func := func fac;
       a_data_flow_kernel := data_flow_kernel fac;
       a_executors := executors fac;
       a_walltime := walltime fac;
       a_cache := cache fac;
       a_fn_hash := func_hash fac;
       a_auxiliary_files := auxiliary_files fac |} (ext w) = (Ret inst, e1) ->
  let r := AppFactory_call self args kwargs w in
  r.1 = (cls_call (app_class fac) inst args kwargs e1).1 /\
  ext r.2 = (cls_call (app_class fac) inst args kwargs e1).2 /\
  heap r.2 = heap w /\
  trace r.2 =
    trace w ++
    [Constructed (app_class fac)
       {| a_func := func fac;
          a_data_flow_kernel := data_flow_kernel fac;
          a_executors := executors fac;
          a_walltime := walltime fac;
          a_cache := cache fac;
          a_fn_hash := func_hash fac;
          a_auxiliary_files := auxiliary_files fac |} inst;
     Called inst args kwargs].
Proof.
  intros Hh Hc r. subst r.
  rewrite (AppFactory_call_returns self fac args kwargs w inst e1 Hh Hc).
  repeat split.
Qed.

(** C8: the object a construction returns keeps every attribute through
    any sequence of calls (no call changes the heap), and every app
    object those calls build is built with the [func_hash] stored at
    construction. *)
Theorem C8_attributes_fixed_at_construction
    cls f dfk c ex wt aux w0 self w :
  new cls f dfk c ex wt aux w0 = (Ret self, w) ->
  exists fac,
    heap w !! self = Some fac /\
    forall calls,
      heap (call_all self calls w).2 = heap w /\
      heap (call_all self calls w).2 !! self = Some fac /\
      exists evs,
        trace (call_all self calls w).2 = trace w ++ evs /\
        Forall (from_factory fac) evs /\
        forall cls' a inst,
          Constructed cls' a inst ∈ evs -> a_fn_hash a = func_hash fac.
Proof.
  intros Hnew.
  destruct (new_inv _ _ _ _ _ _ _ _ _ _ Hnew) as (fac & w1 & _ & Hh & _).
  exists fac. split; [exact Hh|]. intros calls.
  destruct (call_all_frame self fac calls w Hh) as (H1 & evs & T & F).
  split; [exact H1|]. split; [now rewrite H1|].
  exists evs. split; [exact T|]. split; [exact F|].
  intros cls' a inst Hin.
  rewrite Forall_forall in F. apply F in Hin. simpl in Hin.
  destruct Hin as [_ ->]. reflexivity.
Qed.

(** C10: a [cache] that is truthy but is not [True] takes the branch of
    line 61: [func_hash] is the display name; the factory keeps that
    value as its [cache] and every app object it builds receives it:
    whatever calls came before, a call whose app class constructor
    returns builds the app object from that very [cache] value (and the
    name as [fn_hash]) and calls it. *)
Theorem C10_only_True_enables_hashing cls f dfk c ex wt aux w nm sg :
  truthy c = true ->
  c <> VBool true ->
  __name__ f = Some nm ->
  signature f = Ret sg ->
  exists self w' fac,
    new cls f dfk c ex wt aux w = (Ret self, w') /\
    heap w' !! self = Some fac /\
    func_hash fac = nm /\
    cache fac = c /\
    (forall calls, exists evs,
       trace (call_all self calls w').2 = trace w' ++ evs /\
       forall cls' a inst,
         Constructed cls' a inst ∈ evs -> a_cache a = c /\ a_fn_hash a = nm) /\
    (forall calls args kwargs inst e1,
       cls_new cls
         {| a_func := f; a_data_flow_kernel := dfk; a_executors := ex;
            a_walltime := wt; a_cache := c; a_fn_hash := nm;
            a_auxiliary_files := aux |}
         (ext (call_all self calls w').2) = (Ret inst, e1) ->
       (AppFactory_call self args kwargs (call_all self calls w').2).1 =
         (cls_call cls inst args kwargs e1).1 /\
       trace (AppFactory_call self args kwargs (call_all self calls w').2).2 =
         trace (call_all self calls w').2 ++
         [Constructed cls
            {| a_func := f; a_data_flow_kernel := dfk; a_executors := ex;
               a_walltime := wt; a_cache := c; a_fn_hash := nm;
               a_auxiliary_files := aux |} inst;
          Called inst args kwargs]).
Proof.
  intros _ Hc Hn Hs.
  pose proof (AppFactory_init_uncached getsource signature cls f dfk c ex wt
                aux w nm sg Hn Hs (is_True_false c Hc)) as Hi.
  destruct (new_built getsource signature _ _ _ _ _ _ _ _ _ _ Hi)
    as (l & w' & E & L & _).
  eexists l, w', _. split; [exact E|]. split; [exact L|].
  split; [reflexivity|]. split; [reflexivity|]. split.
  - intros calls.
    destruct (call_all_frame l _ calls w' L) as (_ & evs & T & F).
    exists evs. split; [exact T|].
    intros cls' a inst Hin.
    rewrite Forall_forall in F. apply F in Hin. simpl in Hin.
    destruct Hin as [_ ->]. split; reflexivity.
  - intros calls args kwargs inst e1 Hnew.
    destruct (call_all_frame l _ calls w' L) as (Hh & _).
    assert (heap (call_all l calls w').2 !! l = Some _) as L'
      by (rewrite Hh; exact L).
    rewrite (AppFactory_call_returns l _ args kwargs _ inst e1 L' Hnew).
    split; reflexivity.
Qed.

End Invocation.

(** * The stub registry at work *)

Example stub_construction :
  AppFactory_new Stub.getsource Stub.signature Stub.PythonApp Stub.double
    VNone (VBool true) (VStr (py "all")) (VInt 60) VNone Stub.w0
  = (Ret 0, Stub.w_made).
Proof. vm_compute. reflexivity. Qed.

Example utf8_two_bytes : Utf8.encode [0xE9] = Ret [0xC3; 0xA9].
Proof. reflexivity. Qed.

Example utf8_three_bytes : Utf8.encode [0x20AC] = Ret [0xE2; 0x82; 0xAC].
Proof. reflexivity. Qed.

Example utf8_four_bytes : Utf8.encode [0x1F600] = Ret [0xF0; 0x9F; 0x98; 0x80].
Proof. reflexivity. Qed.

Example utf8_surrogate : Utf8.encode [0xD800] = Raise UnicodeEncodeError.
Proof. reflexivity. Qed.

Example md5_e_acute : MD5.hexdigest [0xC3; 0xA9] = py "66ddcd97cfdeabb2f6fb8a999b4bc76f".
Proof. vm_compute. reflexivity. Qed.

(** * The theorems at the stub callables *)

Lemma C1_witness :
  exists l1 w1' fac1,
    AppFactory_new Stub.getsource Stub.signature Stub.PythonApp Stub.double
      VNone (VBool true) (VStr (py "all")) (VInt 60) VNone Stub.w0
    = (Ret l1, w1') /\
    heap w1' !! l1 = Some fac1 /\
    func_hash fac1 = py "c054adf36f4977e9da2984e6f9d6ac24".
Proof.
  destruct (C1_identity_is_md5_of_source Stub.getsource Stub.signature
              Stub.PythonApp Stub.BashApp Stub.double Stub.double
              VNone (VObj 9) (VStr (py "all")) (VList []) (VInt 60) (VInt 5)
              VNone VNone Stub.w0 (World [] ∅ 7%nat)
              (py "double") (py "double") [py "x"] [py "x"]
              (py "def double(x): return 2 * x")
              (py "def double(x): return 2 * x")
              eq_refl eq_refl eq_refl eq_refl eq_refl eq_refl eq_refl)
    as (l1 & w1' & fac1 & l2 & w2' & fac2 & E1 & L1 & E2 & L2 & H1 & _).
  exists l1, w1', fac1. split; [exact E1|]. split; [exact L1|].
  rewrite H1. vm_compute. reflexivity.
Defined.

Lemma C2_counterexample :
  exists self w' fac,
    Stub.getsource Stub.prompt_f (ext Stub.w0) = Raise OSError /\
    AppFactory_new Stub.getsource Stub.signature Stub.PythonApp Stub.prompt_f
      VNone (VBool true) (VStr (py "all")) (VInt 60) VNone Stub.w0
    = (Ret self, w') /\
    heap w' !! self = Some fac /\
    __name__ (func fac) = Some (py "f") /\
    func_hash fac = py "8fa14cdd754f91cc6554c9e71929cce7" /\
    func_hash fac <> py "f".
Proof.
  destruct (new_built Stub.getsource Stub.signature Stub.PythonApp
              Stub.prompt_f VNone (VBool true) (VStr (py "all")) (VInt 60)
              VNone Stub.w0 _ _
              (AppFactory_init_nosource Stub.getsource Stub.signature
                 Stub.PythonApp Stub.prompt_f VNone (VStr (py "all"))
                 (VInt 60) VNone Stub.w0 (py "f") [py "x"] (py "f")
                 eq_refl eq_refl eq_refl eq_refl))
    as (l & w' & E & L & _).
  eexists l, w', _. split; [reflexivity|]. split; [exact E|].
  split; [exact L|]. split; [reflexivity|].
  split; [vm_compute; reflexivity|]. vm_compute. discriminate.
Qed.

Lemma C2_witness :
  exists self w' fac,
    AppFactory_new Stub.getsource Stub.signature Stub.PythonApp Stub.prompt_f
      VNone (VBool true) (VStr (py "all")) (VInt 60) VNone Stub.w0
    = (Ret self, w') /\
    heap w' !! self = Some fac /\
    func_hash fac = py "8fa14cdd754f91cc6554c9e71929cce7" /\
    trace w' = [Log DEBUG msg_no_source []].
Proof.
  destruct (C2_identity_is_md5_of_name Stub.getsource Stub.signature
              Stub.PythonApp Stub.prompt_f VNone (VStr (py "all")) (VInt 60)
              VNone Stub.w0 (py "f") [py "x"] (py "f")
              eq_refl eq_refl eq_refl eq_refl)
    as (l & w' & fac & E & L & H & T).
  exists l, w', fac. split; [exact E|]. split; [exact L|].
  split; [rewrite H; vm_compute; reflexivity | exact T].
Defined.

Lemma C3_witness :
  exists self w' fac,
    AppFactory_new Stub.getsource Stub.signature Stub.PythonApp Stub.double
      VNone (VBool false) (VStr (py "all")) (VInt 60) VNone Stub.w0
    = (Ret self, w') /\
    heap w' !! self = Some fac /\
    name fac = py "double" /\
    func_hash fac = py "double".
Proof.
  exact (C3_uncached_identity_is_name Stub.getsource Stub.signature
           Stub.PythonApp Stub.double VNone (VStr (py "all")) (VInt 60) VNone
           Stub.w0 (py "double") [py "x"] eq_refl eq_refl).
Defined.

Lemma C4_witness :
  (make Stub.getsource Stub.signature Stub.registry (py "nonexistent")
     Stub.double VNone ∅ Stub.w0).1
  = Raise (InvalidAppTypeError
             [VStr msg_invalid_kind; VStr (py "dfk_registry");
              VStr (py "nonexistent")]).
Proof.
  destruct (C4_invalid_kind_iff_unregistered Stub.getsource Stub.signature
              Stub.BashApp Stub.PythonApp (py "dfk_registry")
              (py "nonexistent") Stub.double VNone ∅ Stub.w0
              ltac:(intros a; discriminate) ltac:(intros a; discriminate))
    as [H _].
  apply H. split; discriminate.
Defined.

Lemma C5_witness :
  exists self w' fac,
    make Stub.getsource Stub.signature Stub.registry (py "bash") Stub.double
      (VObj 1) {[ py "cache" := VBool true; py "walltime" := VInt 120 ]}
      Stub.w0 = (Ret self, w') /\
    heap w' !! self = Some fac /\
    app_class fac = Stub.BashApp /\
    data_flow_kernel fac = VObj 1 /\
    cache fac = VBool true /\
    walltime fac = VInt 120 /\
    executors fac = VStr (py "all").
Proof.
  destruct (C5_registered_kind_builds_factory Stub.getsource Stub.signature
              Stub.BashApp Stub.PythonApp (py "dfk_registry") (py "bash")
              Stub.BashApp Stub.double (VObj 1)
              {[ py "cache" := VBool true; py "walltime" := VInt 120 ]}
              Stub.w0 (py "double") [py "x"])
    as (l & w' & fac & E & F & L & A & Fn & D & C & Ex & Wt & Ax & _).
  - left. split; reflexivity.
  - apply (bool_decide_unpack _). vm_compute. exact I.
  - reflexivity.
  - reflexivity.
  - intros _. left. exists (py "def double(x): return 2 * x").
    split; [reflexivity|]. eexists. reflexivity.
  - exists l, w', fac. split; [exact E|]. split; [exact L|].
    split; [exact A|]. split; [exact D|].
    split; [rewrite C; reflexivity|].
    split; [rewrite Wt; reflexivity|]. rewrite Ex; reflexivity.
Defined.

Lemma C6_witness :
  (AppFactory_call 0 [VInt 21] {[ py "n" := VInt 1 ]} Stub.w_made).1
    = Ret (VList [VInt 21]) /\
  trace (AppFactory_call 0 [VInt 21] {[ py "n" := VInt 1 ]} Stub.w_made).2
    = [Constructed Stub.PythonApp
         {| a_func := Stub.double;
            a_data_flow_kernel := VNone;
            a_executors := VStr (py "all");
            a_walltime := VInt 60;
            a_cache := VBool true;
            a_fn_hash := py "c054adf36f4977e9da2984e6f9d6ac24";
            a_auxiliary_files := VNone |}
         {| Stub.i_args :=
              {| a_func := Stub.double;
                 a_data_flow_kernel := VNone;
                 a_executors := VStr (py "all");
                 a_walltime := VInt 60;
                 a_cache := VBool true;
                 a_fn_hash := py "c054adf36f4977e9da2984e6f9d6ac24";
                 a_auxiliary_files := VNone |};
            Stub.i_serial := O |};
       Called
         {| Stub.i_args :=
              {| a_func := Stub.double;
                 a_data_flow_kernel := VNone;
                 a_executors := VStr (py "all");
                 a_walltime := VInt 60;
                 a_cache := VBool true;
                 a_fn_hash := py "c054adf36f4977e9da2984e6f9d6ac24";
                 a_auxiliary_files := VNone |};
            Stub.i_serial := O |}
         [VInt 21] {[ py "n" := VInt 1 ]}].
Proof.
  destruct (C6_call_builds_one_app_and_calls_it 0 Stub.fac_double [VInt 21]
              {[ py "n" := VInt 1 ]} Stub.w_made _ _ eq_refl eq_refl)
    as (R & _ & _ & T).
  split; [exact R | exact T].
Defined.



Lemma C8_witness :
  heap (call_all 0 [([VInt 1], ∅); ([VInt 2], {[ py "k" := VNone ]})]
          Stub.w_made).2 !! 0%N = Some Stub.fac_double /\
  Forall (from_factory Stub.fac_double)
    (trace (call_all 0 [([VInt 1], ∅); ([VInt 2], {[ py "k" := VNone ]})]
              Stub.w_made).2).
Proof.
  destruct (C8_attributes_fixed_at_construction Stub.getsource Stub.signature
              Stub.PythonApp Stub.double VNone (VBool true) (VStr (py "all"))
              (VInt 60) VNone Stub.w0 0 Stub.w_made
              ltac:(vm_compute; reflexivity))
    as (fac & Hh & Hcalls).
  assert (fac = Stub.fac_double) as -> by (injection Hh; auto).
  destruct (Hcalls [([VInt 1], ∅); ([VInt 2], {[ py "k" := VNone ]})])
    as (_ & Hk & evs & T & F & _).
  split; [exact Hk|]. rewrite T. exact F.
Defined.

Lemma C9_witness :
  built_identity
    (AppFactory_new Stub.getsource Stub.signature Stub.PythonApp Stub.double
       VNone (VBool true) (VStr (py "all")) (VInt 60) VNone Stub.w0)
  = built_identity
    (AppFactory_new Stub.getsource Stub.signature Stub.BashApp Stub.double
       (VObj 3) (VBool true) (VList []) (VInt 5) VNone
       (World [Log ERROR [] []] ∅ 7%nat)).
Proof.
  exact (C9_identity_reproducible Stub.getsource Stub.signature
           Stub.PythonApp Stub.BashApp Stub.double VNone (VObj 3) (VBool true)
           (VStr (py "all")) (VList []) (VInt 60) (VInt 5) VNone VNone
           Stub.w0 (World [Log ERROR [] []] ∅ 7%nat) eq_refl).
Defined.

Lemma C10_witness :
  AppFactory_new Stub.getsource Stub.signature Stub.PythonApp Stub.double
    VNone (VInt 1) (VStr (py "all")) (VInt 60) VNone Stub.w0
  = (Ret 0,
     World []
       {[ 0 := {| name := py "double"; app_class := Stub.PythonApp;
                  data_flow_kernel := VNone; func := Stub.double;
                  status := py "created"; walltime := VInt 60;
                  executors := VStr (py "all"); sig := [py "x"];
                  cache := VInt 1; auxiliary_files := VNone;
                  func_hash := py "double" |} ]} O) /\
  trace
    (AppFactory_call 0 [VInt 21] ∅
       (World []
          {[ 0 := {| name := py "double"; app_class := Stub.PythonApp;
                     data_flow_kernel := VNone; func := Stub.double;
                     status := py "created"; walltime := VInt 60;
                     executors := VStr (py "all"); sig := [py "x"];
                     cache := VInt 1; auxiliary_files := VNone;
                     func_hash := py "double" |} ]} O)).2
  = [Constructed Stub.PythonApp
       {| a_func := Stub.double; a_data_flow_kernel := VNone;
          a_executors := VStr (py "all"); a_walltime := VInt 60;
          a_cache := VInt 1; a_fn_hash := py "double";
          a_auxiliary_files := VNone |}
       {| Stub.i_args :=
            {| a_func := Stub.double; a_data_flow_kernel := VNone;
               a_executors := VStr (py "all"); a_walltime := VInt 60;
               a_cache := VInt 1; a_fn_hash := py "double";
               a_auxiliary_files := VNone |};
          Stub.i_serial := O |};
     Called
       {| Stub.i_args :=
            {| a_func := Stub.double; a_data_flow_kernel := VNone;
               a_executors := VStr (py "all"); a_walltime := VInt 60;
               a_cache := VInt 1; a_fn_hash := py "double";
               a_auxiliary_files := VNone |};
          Stub.i_serial := O |}
       [VInt 21] ∅].
Proof.
  destruct (C10_only_True_enables_hashing Stub.getsource Stub.signature
              Stub.PythonApp Stub.double VNone (VInt 1) (VStr (py "all"))
              (VInt 60) VNone Stub.w0 (py "double") [py "x"]
              eq_refl ltac:(discriminate) eq_refl eq_refl)
    as (l & w' & fac & E & _ & _ & _ & _ & Hcall).
  assert (AppFactory_new Stub.getsource Stub.signature Stub.PythonApp
            Stub.double VNone (VInt 1) (VStr (py "all")) (VInt 60) VNone
            Stub.w0
          = (Ret 0,
             World []
               {[ 0 := {| name := py "double"; app_class := Stub.PythonApp;
                          data_flow_kernel := VNone; func := Stub.double;
                          status := py "created"; walltime := VInt 60;
                          executors := VStr (py "all"); sig := [py "x"];
                          cache := VInt 1; auxiliary_files := VNone;
                          func_hash := py "double" |} ]} O)) as Ecomp
    by (vm_compute; reflexivity).
  split; [exact Ecomp|].
  rewrite Ecomp in E. injection E as <- <-.
  destruct (Hcall [] [VInt 21] ∅ _ _ eq_refl) as [_ T].
  exact T.
Defined.

(** * More on construction *)

Set Warnings "-clear-no-such-hyp".

Section ConstructionCases.

Context {Ext Inst : Type}.
Variable getsource : callable -> Ext -> outcome pystr.
Variable signature : callable -> outcome Signature.

Implicit Types (cls : @AppClass Ext Inst) (w : @world Ext Inst)
  (f : callable) (dfk c ex wt aux : value).

Local Abbreviation new := (AppFactory_new getsource signature).
Local Abbreviation init := (AppFactory_init getsource signature).

(** the object [__init__] fills, given the name, signature and identity *)
Local Abbreviation filled cls f dfk c ex wt aux n sg h :=
  {| name := n; app_class := cls; data_flow_kernel := dfk; func := f;
     status := py "created"; walltime := wt; executors := ex; sig := sg;
     cache := c; auxiliary_files := aux; func_hash := h |}.

(** the state once line 56 has logged *)
Local Abbreviation warned w :=
  (World (trace w ++ [Log DEBUG msg_no_source []]) (heap w) (ext w)).

(** Every path through lines 40-61. *)
Lemma AppFactory_init_cases cls f dfk c ex wt aux w :
  init cls f dfk c ex wt aux w =
    match __name__ f with
    | None => (Raise AttributeError, w)
    | Some n =>
        match signature f with
        | Raise e => (Raise e, w)
        | Ret sg =>
            if is_True c then
              match getsource f (ext w) with
              | Ret src =>
                  match Utf8.encode_opt src with
                  | Some b =>
                      (Ret (filled cls f dfk c ex wt aux n sg (MD5.hexdigest b)), w)
                  | None => (Raise UnicodeEncodeError, w)
                  end
              | Raise OSError =>
                  match Utf8.encode_opt n with
                  | Some b =>
                      (Ret (filled cls f dfk c ex wt aux n sg (MD5.hexdigest b)),
                       warned w)
                  | None => (Raise UnicodeEncodeError, warned w)
                  end
              | Raise e => (Raise e, w)
              end
            else (Ret (filled cls f dfk c ex wt aux n sg n), w)
        end
    end.
Proof.
  unfold AppFactory_init, bind, lift, ret, raise, getattr_name,
    except_OSError, logger, emit, Utf8.encode.
  destruct (__name__ f) as [n|]; simpl; [|reflexivity].
  destruct (signature f) as [sg|e]; simpl; [|reflexivity].
  destruct (is_True c); simpl; [|reflexivity].
  destruct (getsource f (ext w)) as [src|e]; simpl.
  - now destruct (Utf8.encode_opt src).
  - destruct e; simpl; try reflexivity.
    now destruct (Utf8.encode_opt n).
Qed.

(** [AppFactory(..)] in terms of [__init__]. *)
Lemma AppFactory_new_cases cls f dfk c ex wt aux w :
  new cls f dfk c ex wt aux w =
    match init cls f dfk c ex wt aux w with
    | (Ret fac, w1) =>
        (Ret (fresh (dom (heap w1))),
         World (trace w1) (<[fresh (dom (heap w1)) := fac]> (heap w1)) (ext w1))
    | (Raise e, w1) => (Raise e, w1)
    end.
Proof.
  unfold AppFactory_new, bind, alloc.
  now destruct (AppFactory_init _ _ _ _ _ _ _ _ _ _) as [[fac|e] w1].
Qed.

(** [__init__] never touches the heap or the outside state, and adds to
    the trace at most the debug record. *)
Lemma AppFactory_init_frame cls f dfk c ex wt aux w :
  let r := init cls f dfk c ex wt aux w in
  heap r.2 = heap w /\ ext r.2 = ext w /\
  (trace r.2 = trace w \/ trace r.2 = trace w ++ [Log DEBUG msg_no_source []]).
Proof.
  cbv zeta. rewrite AppFactory_init_cases.
  destruct (__name__ f) as [n|]; [|simpl; auto].
  destruct (signature f) as [sg|e]; [|simpl; auto].
  destruct (is_True c); [|simpl; auto].
  destruct (getsource f (ext w)) as [src|e].
  - destruct (Utf8.encode_opt src); simpl; auto.
  - destruct e; simpl; auto; destruct (Utf8.encode_opt n); simpl; auto.
Qed.

(** A second [__init__] for the same callable and [cache], where the
    outside state is the same, fills the same name, signature and
    identity. *)
Lemma AppFactory_init_again cls1 cls2 f dfk1 dfk2 c ex1 ex2 wt1 wt2 aux1 aux2
    w1 w2 fa w1' :
  init cls1 f dfk1 c ex1 wt1 aux1 w1 = (Ret fa, w1') ->
  ext w2 = ext w1 ->
  exists w2',
    init cls2 f dfk2 c ex2 wt2 aux2 w2 =
      (Ret (filled cls2 f dfk2 c ex2 wt2 aux2 (name fa) (sig fa) (func_hash fa)),
       w2').
Proof.
  intros H He. rewrite AppFactory_init_cases in H.
  rewrite AppFactory_init_cases, He.
  destruct (__name__ f) as [n|]; [|discriminate].
  destruct (signature f) as [sg|e]; [|discriminate].
  destruct (is_True c).
  - destruct (getsource f (ext w1)) as [src|e].
    + destruct (Utf8.encode_opt src); [|discriminate].
      injection H as <- _. eexists. reflexivity.
    + destruct e; try discriminate.
      destruct (Utf8.encode_opt n); [|discriminate].
      injection H as <- _. eexists. reflexivity.
  - injection H as <- _. eexists. reflexivity.
Qed.

(** X1: [AppFactory(..)] returns exactly when the callable has a
    [__name__], [inspect.signature] returns, and, if [cache is True], the
    text to hash (the source, or the name after an [OSError]) is
    encodable. *)
Theorem X1_construction_returns_iff cls f dfk c ex wt aux w :
  (exists self w', new cls f dfk c ex wt aux w = (Ret self, w')) <->
  (exists n, __name__ f = Some n) /\
  (exists sg, signature f = Ret sg) /\
  identity_computable getsource f c (ext w).
Proof.
  rewrite AppFactory_new_cases, AppFactory_init_cases.
  unfold identity_computable. split.
  - intros (self & w' & H).
    destruct (__name__ f) as [n|]; [|discriminate].
    destruct (signature f) as [sg|e]; [|discriminate].
    split; [eauto|]. split; [eauto|]. intros Hc. rewrite Hc in H.
    destruct (getsource f (ext w)) as [src|e].
    + left. exists src. split; [reflexivity|].
      destruct (Utf8.encode_opt src); [eauto|discriminate].
    + destruct e; try discriminate.
      right. split; [reflexivity|]. exists n. split; [reflexivity|].
      destruct (Utf8.encode_opt n); [eauto|discriminate].
  - intros ((n & Hn) & (sg & Hs) & Hc). rewrite Hn, Hs.
    destruct (is_True c); [|eauto].
    destruct (Hc eq_refl) as [(src & -> & [b ->]) | (-> & n' & Hn' & [b Hb])];
      [eauto|].
    assert (n' = n) as -> by congruence. rewrite Hb. eauto.
Qed.

(** X2: the exceptions of [AppFactory(..)], all of them: [AttributeError]
    for a callable without [__name__]; what [inspect.signature] raises;
    with [cache is True], what [getsource] raises other than [OSError],
    and [UnicodeEncodeError] when the text to hash is not encodable.
    Whichever it is, no object has been made. *)
Theorem X2_construction_exceptions cls f dfk c ex wt aux w e :
  let r := new cls f dfk c ex wt aux w in
  (r.1 = Raise e <->
     (__name__ f = None /\ e = AttributeError) \/
     (exists n, __name__ f = Some n /\ signature f = Raise e) \/
     (exists n sg, __name__ f = Some n /\ signature f = Ret sg /\
        is_True c = true /\
        ((getsource f (ext w) = Raise e /\ e <> OSError) \/
         (e = UnicodeEncodeError /\
          ((exists src, getsource f (ext w) = Ret src /\
                        Utf8.encode_opt src = None) \/
           (getsource f (ext w) = Raise OSError /\
            Utf8.encode_opt n = None)))))) /\
  (r.1 = Raise e -> heap r.2 = heap w).
Proof.
  cbv zeta. rewrite AppFactory_new_cases, AppFactory_init_cases.
  destruct (__name__ f) as [n|]; simpl; [|naive_solver].
  destruct (signature f) as [sg|e0]; simpl; [|naive_solver].
  destruct (is_True c); simpl; [|naive_solver].
  destruct (getsource f (ext w)) as [src|e0]; simpl.
  - destruct (Utf8.encode_opt src) eqn:Eb; simpl; naive_solver.
  - destruct e0; simpl; try naive_solver.
    destruct (Utf8.encode_opt n) eqn:Eb; simpl; naive_solver.
Qed.

(** X3: the object a construction returns holds the arguments as they
    were given, the callable's own name and signature, and the status
    "created". *)
Theorem X3_construction_stores_arguments cls f dfk c ex wt aux w self w' :
  new cls f dfk c ex wt aux w = (Ret self, w') ->
  exists fac,
    heap w' !! self = Some fac /\
    app_class fac = cls /\ func fac = f /\ data_flow_kernel fac = dfk /\
    cache fac = c /\ executors fac = ex /\ walltime fac = wt /\
    auxiliary_files fac = aux /\
    status fac = py "created" /\
    __name__ f = Some (name fac) /\
    signature f = Ret (sig fac).
Proof.
  rewrite AppFactory_new_cases, AppFactory_init_cases.
  destruct (__name__ f) as [n|]; [|discriminate].
  destruct (signature f) as [sg|e]; [|discriminate].
  assert (forall h w1,
            (Ret (fresh (dom (heap w1))),
             World (trace w1)
               (<[fresh (dom (heap w1)) :=
                    filled cls f dfk c ex wt aux n sg h]> (heap w1))
               (ext w1)) = (Ret self, w') ->
            exists fac,
              heap w' !! self = Some fac /\
              app_class fac = cls /\ func fac = f /\
              data_flow_kernel fac = dfk /\ cache fac = c /\
              executors fac = ex /\ walltime fac = wt /\
              auxiliary_files fac = aux /\ status fac = py "created" /\
              Some n = Some (name fac) /\ Ret sg = Ret (sig fac)) as Hdone.
  { intros h w1 [= <- <-]. eexists. split; [apply lookup_insert_eq|].
    repeat split. }
  destruct (is_True c); [|apply Hdone].
  destruct (getsource f (ext w)) as [src|e].
  - destruct (Utf8.encode_opt src); [apply Hdone|discriminate].
  - destruct e; try discriminate.
    destruct (Utf8.encode_opt n); [apply Hdone|discriminate].
Qed.

(** X4: a construction leaves every existing object as it was and the
    outside state untouched; the object it returns sits where none was;
    when it raises, the heap is the old one. *)
Theorem X4_construction_frame cls f dfk c ex wt aux w :
  let r := new cls f dfk c ex wt aux w in
  ext r.2 = ext w /\
  (forall l fac, heap w !! l = Some fac -> heap r.2 !! l = Some fac) /\
  (forall self, r.1 = Ret self ->
     heap w !! self = None /\ dom (heap r.2) = {[self]} ∪ dom (heap w)) /\
  (forall e, r.1 = Raise e -> heap r.2 = heap w).
Proof.
  cbv zeta. rewrite AppFactory_new_cases.
  destruct (AppFactory_init_frame cls f dfk c ex wt aux w)
    as (Hh & He & _).
  destruct (init cls f dfk c ex wt aux w) as [[fac|e] w1]; simpl in *.
  - rewrite Hh. split; [exact He|].
    pose proof (is_fresh (dom (heap w))) as Hfresh.
    split; [|split; [|discriminate]].
    + intros l fac' Hl. rewrite lookup_insert_ne; [exact Hl|].
      intros <-. apply Hfresh. apply elem_of_dom. eauto.
    + intros self [= <-]. split; [now apply not_elem_of_dom|].
      apply dom_insert_L.
  - split; [exact He|]. split; [now rewrite Hh|].
    split; [discriminate|]. intros _ _. exact Hh.
Qed.

(** X5: the debug record of line 56 is logged exactly when the callable
    has a name and a signature, [cache is True] and [getsource] raises
    [OSError], whether or not the construction then returns; otherwise
    the trace is left as it was. *)
Theorem X5_debug_record_iff_degraded cls f dfk c ex wt aux w :
  let r := new cls f dfk c ex wt aux w in
  let degraded :=
    (exists n, __name__ f = Some n) /\ (exists sg, signature f = Ret sg) /\
    is_True c = true /\ getsource f (ext w) = Raise OSError in
  (degraded -> trace r.2 = trace w ++ [Log DEBUG msg_no_source []]) /\
  (~ degraded -> trace r.2 = trace w).
Proof.
  cbv zeta. rewrite AppFactory_new_cases, AppFactory_init_cases.
  destruct (__name__ f) as [n|]; simpl; [|naive_solver].
  destruct (signature f) as [sg|e]; simpl; [|naive_solver].
  destruct (is_True c); simpl; [|naive_solver].
  destruct (getsource f (ext w)) as [src|e]; simpl.
  - destruct (Utf8.encode_opt src); simpl; naive_solver.
  - destruct e; simpl; try naive_solver.
    destruct (Utf8.encode_opt n); simpl; naive_solver.
Qed.

(** X6: with [cache is True] the [func_hash] of a returned factory is
    always 32 characters among 0-9 and a-f, source or no source. *)
Theorem X6_cached_identity_is_hex32 cls f dfk c ex wt aux w self w' :
  is_True c = true ->
  new cls f dfk c ex wt aux w = (Ret self, w') ->
  exists fac,
    heap w' !! self = Some fac /\
    length (func_hash fac) = 32%nat /\
    Forall is_hexdigit (func_hash fac).
Proof.
  intros Hc. rewrite AppFactory_new_cases, AppFactory_init_cases, Hc.
  destruct (__name__ f) as [n|]; [|discriminate].
  destruct (signature f) as [sg|e]; [|discriminate].
  destruct (getsource f (ext w)) as [src|e].
  - destruct (Utf8.encode_opt src) as [b|]; [|discriminate].
    intros [= <- <-]. eexists. split; [apply lookup_insert_eq|].
    split; [exact (hexdigest_length b) | exact (hexdigest_is_hex b)].
  - destruct e; try discriminate.
    destruct (Utf8.encode_opt n) as [b|]; [|discriminate].
    intros [= <- <-]. eexists. split; [apply lookup_insert_eq|].
    split; [exact (hexdigest_length b) | exact (hexdigest_is_hex b)].
Qed.

(** X7: when no source text is hashed ([cache] is not [True], or
    [getsource] raises [OSError] for both), two callables that share a
    name get the same identity, whatever else distinguishes them. *)
Theorem X7_same_name_same_identity
    cls1 cls2 f1 f2 dfk1 dfk2 c ex1 ex2 wt1 wt2 aux1 aux2 w1 w2 sg1 sg2 :
  __name__ f1 = __name__ f2 ->
  signature f1 = Ret sg1 ->
  signature f2 = Ret sg2 ->
  (is_True c = true ->
   getsource f1 (ext w1) = Raise OSError /\
   getsource f2 (ext w2) = Raise OSError) ->
  built_identity (new cls1 f1 dfk1 c ex1 wt1 aux1 w1) =
  built_identity (new cls2 f2 dfk2 c ex2 wt2 aux2 w2).
Proof.
  intros Hn Hs1 Hs2 Hg.
  rewrite !AppFactory_new_cases, !AppFactory_init_cases, Hs1, Hs2, <- Hn.
  destruct (__name__ f1) as [n|]; [|reflexivity].
  destruct (is_True c).
  - destruct (Hg eq_refl) as [-> ->].
    destruct (Utf8.encode_opt n); simpl; [|reflexivity].
    now rewrite !lookup_insert_eq.
  - simpl. now rewrite !lookup_insert_eq.
Qed.

(** X8: constructing again right after a construction that returned
    gives a second, different object; the first one is still there, and
    the two have the same [func_hash]. *)
Theorem X8_second_construction
    cls1 cls2 f dfk1 dfk2 c ex1 ex2 wt1 wt2 aux1 aux2 w l1 w1 :
  new cls1 f dfk1 c ex1 wt1 aux1 w = (Ret l1, w1) ->
  exists l2 w2 fac1 fac2,
    new cls2 f dfk2 c ex2 wt2 aux2 w1 = (Ret l2, w2) /\
    l1 <> l2 /\
    heap w2 !! l1 = Some fac1 /\
    heap w2 !! l2 = Some fac2 /\
    func_hash fac2 = func_hash fac1.
Proof.
  intros H1. rewrite AppFactory_new_cases in H1.
  destruct (init cls1 f dfk1 c ex1 wt1 aux1 w) as [[fa|e] wa] eqn:Hi;
    [|discriminate].
  injection H1 as <- <-.
  destruct (AppFactory_init_again cls1 cls2 f dfk1 dfk2 c ex1 ex2 wt1 wt2
              aux1 aux2 w
              (World (trace wa) (<[fresh (dom (heap wa)) := fa]> (heap wa))
                 (ext wa)) fa wa Hi) as (w2' & Hi2).
  { simpl.
    pose proof (AppFactory_init_frame cls1 f dfk1 c ex1
                  wt1 aux1 w) as Hf.
    rewrite Hi in Hf. simpl in Hf. tauto. }
  pose proof (AppFactory_init_frame cls2 f dfk2 c ex2 wt2
                aux2
                (World (trace wa) (<[fresh (dom (heap wa)) := fa]> (heap wa))
                   (ext wa))) as Hf2.
  rewrite Hi2 in Hf2. simpl in Hf2. destruct Hf2 as (Hh2 & _).
  rewrite AppFactory_new_cases, Hi2.
  assert (fresh (dom (heap wa)) <> fresh (dom (heap w2'))) as Hne.
  { intros Heq. apply (is_fresh (dom (heap w2'))). rewrite <- Heq, Hh2.
    apply elem_of_dom. rewrite lookup_insert_eq. eauto. }
  eexists _, _, fa, _. split; [reflexivity|]. split; [exact Hne|]. simpl.
  split; [|split; [apply lookup_insert_eq | reflexivity]].
  rewrite lookup_insert_ne by congruence. rewrite Hh2.
  apply lookup_insert_eq.
Qed.

End ConstructionCases.

(** * More on the registry *)

Section RegistryCases.

Context {Ext Inst : Type}.
Variable getsource : callable -> Ext -> outcome pystr.
Variable signature : callable -> outcome Signature.
Variable BashApp PythonApp : @AppClass Ext Inst.

Implicit Types (cls : @AppClass Ext Inst) (w : @world Ext Inst)
  (f : callable) (dfk : value) (kwargs : kwargs_t) (kind nm k : pystr).

Local Abbreviation new := (AppFactory_new getsource signature).
Local Abbreviation registered kind cls :=
  ((kind = py "bash" /\ cls = BashApp) \/
   (kind = py "python" /\ cls = PythonApp)).
Local Abbreviation plain_keywords :=
  [py "cache"; py "executors"; py "walltime"; py "auxiliary_files"].

(** With keywords among those four, line 138 is the construction on the
    keywords, with the defaults of line 17-24 for the missing ones. *)
Lemma make_forwards nm kind cls f dfk kwargs w :
  registered kind cls ->
  dom kwargs ⊆ list_to_set plain_keywords ->
  make getsource signature
    (AppFactoryFactory_init BashApp PythonApp nm) kind f dfk kwargs w =
    new cls f dfk
      (default (VBool false) (kwargs !! py "cache"))
      (default (VStr (py "all")) (kwargs !! py "executors"))
      (default (VInt 60) (kwargs !! py "walltime"))
      (default VNone (kwargs !! py "auxiliary_files")) w.
Proof.
  intros Hk Hdom.
  assert (kwargs !! py "data_flow_kernel" = None) as Hnone.
  { apply not_elem_of_dom. intros Hin. apply Hdom in Hin.
    set_unfold in Hin. intuition discriminate. }
  rewrite (make_registered getsource signature BashApp PythonApp
             nm kind cls f dfk kwargs w Hk).
  rewrite bool_decide_eq_false_2 by (rewrite Hnone; intros [? [=]]).
  unfold AppFactory_apply.
  rewrite bool_decide_eq_true_2.
  - rewrite lookup_insert_eq.
    rewrite !lookup_insert_ne by discriminate. reflexivity.
  - rewrite dom_insert_L. intros x Hx.
    apply elem_of_union in Hx as [Hx|Hx].
    + apply elem_of_singleton in Hx as ->. set_unfold. auto.
    + apply Hdom in Hx. set_unfold in Hx. set_unfold. tauto.
Qed.

(** X9: on a registered kind, a keyword that [AppFactory.__init__] does
    not take, or a second [data_flow_kernel], is a [TypeError]: nothing
    is constructed or logged, and the callable is not even looked at. *)
Theorem X9_make_rejects_unknown_keyword nm kind cls f dfk kwargs w k :
  registered kind cls ->
  k ∈ dom kwargs ->
  k ∉ plain_keywords ->
  make getsource signature
    (AppFactoryFactory_init BashApp PythonApp nm) kind f dfk kwargs w = (Raise TypeError, w).
Proof.
  intros Hk Hin Hout.
  rewrite (make_registered getsource signature BashApp PythonApp
             nm kind cls f dfk kwargs w Hk).
  destruct (bool_decide (is_Some (kwargs !! py "data_flow_kernel"))) eqn:Hd;
    [reflexivity|].
  apply bool_decide_eq_false in Hd.
  unfold AppFactory_apply. rewrite bool_decide_eq_false_2; [reflexivity|].
  intros Hsub.
  assert (k ∈ dom (<[py "data_flow_kernel" := dfk]> kwargs)) as Hk'
    by (rewrite dom_insert_L; set_solver).
  apply Hsub in Hk'. unfold init_keywords in Hk'.
  rewrite elem_of_list_to_set in Hk'.
  apply elem_of_cons in Hk' as [-> | Hk'].
  - apply Hd. now apply elem_of_dom.
  - contradiction.
Qed.

(** The state [make] leaves on a registered kind with no keyword. *)
Lemma make_default_state nm kind cls f dfk w n sg :
  registered kind cls ->
  __name__ f = Some n ->
  signature f = Ret sg ->
  make getsource signature
    (AppFactoryFactory_init BashApp PythonApp nm) kind f dfk ∅ w =
    (Ret (fresh (dom (heap w))),
     World (trace w)
       (<[fresh (dom (heap w)) :=
            {| name := n; app_class := cls; data_flow_kernel := dfk;
               func := f; status := py "created"; walltime := VInt 60;
               executors := VStr (py "all"); sig := sg;
               cache := VBool false; auxiliary_files := VNone;
               func_hash := n |}]> (heap w))
       (ext w)).
Proof.
  intros Hk Hn Hs.
  rewrite (make_forwards nm kind cls f dfk ∅ w Hk)
    by (rewrite dom_empty_L; apply empty_subseteq).
  rewrite !lookup_empty. simpl.
  rewrite AppFactory_new_cases, AppFactory_init_cases, Hn, Hs. reflexivity.
Qed.

(** X10: [make(kind, func, data_flow_kernel)] with no further keyword
    builds, without consulting [getsource] and without logging, the
    factory with [cache=False], [executors='all'], [walltime=60], no
    auxiliary files, and the callable's name as identity. *)
Theorem X10_make_defaults nm kind cls f dfk w n sg :
  registered kind cls ->
  __name__ f = Some n ->
  signature f = Ret sg ->
  make getsource signature
    (AppFactoryFactory_init BashApp PythonApp nm) kind f dfk ∅ w =
    (Ret (fresh (dom (heap w))),
     World (trace w)
       (<[fresh (dom (heap w)) :=
            {| name := n; app_class := cls; data_flow_kernel := dfk;
               func := f; status := py "created"; walltime := VInt 60;
               executors := VStr (py "all"); sig := sg;
               cache := VBool false; auxiliary_files := VNone;
               func_hash := n |}]> (heap w))
       (ext w)).
Proof. exact (make_default_state nm kind cls f dfk w n sg). Qed.

(** X11: [make] logs at error level exactly for an unregistered kind:
    there it appends the one record; on "bash" and "python" the number
    of error records stays what it was, whatever happens next. *)
Theorem X11_error_record_iff_unregistered nm kind f dfk kwargs w :
  let r := make getsource signature
    (AppFactoryFactory_init BashApp PythonApp nm) kind f dfk kwargs w in
  if decide (kind = py "bash" \/ kind = py "python") then
    logged ERROR (trace r.2) = logged ERROR (trace w)
  else
    trace r.2 = trace w ++ [Log ERROR msg_invalid_kind [VStr nm; VStr kind]].
Proof.
  cbv zeta. destruct (decide _) as [Hreg|Hun].
  - assert (exists cls, registered kind cls) as [cls Hk]
      by (destruct Hreg; eauto).
    rewrite (make_registered getsource signature BashApp PythonApp
               nm kind cls f dfk kwargs w Hk).
    destruct (bool_decide _); [reflexivity|].
    unfold AppFactory_apply. destruct (bool_decide _); [|reflexivity].
    rewrite AppFactory_new_cases.
    match goal with
    | |- context [AppFactory_init _ _ ?a ?b ?c ?d ?e ?g ?h ?i] =>
        pose proof (AppFactory_init_frame getsource signature a b c d e g h i)
          as (_ & _ & Ht);
        destruct (AppFactory_init getsource signature a b c d e g h i)
          as [[fac|x] w1]
    end; simpl in *; destruct Ht as [-> | ->]; try reflexivity.
    + clear. induction (trace w) as [|ev t IH]; simpl; [reflexivity|].
      destruct ev as [[|] ? ?| |]; simpl; now rewrite ?IH.
    + clear. induction (trace w) as [|ev t IH]; simpl; [reflexivity|].
      destruct ev as [[|] ? ?| |]; simpl; now rewrite ?IH.
  - rewrite make_unregistered by tauto. reflexivity.
Qed.

(** X12: through the registry, [cache=True] on a callable whose source
    is recovered gives a factory of the kind's class whose identity is
    the MD5 hex digest of the UTF-8 source text. *)
Theorem X12_make_cached_hashes_source nm kind cls f dfk kwargs w n sg src b :
  registered kind cls ->
  dom kwargs ⊆ list_to_set plain_keywords ->
  kwargs !! py "cache" = Some (VBool true) ->
  __name__ f = Some n ->
  signature f = Ret sg ->
  getsource f (ext w) = Ret src ->
  Utf8.encode_opt src = Some b ->
  exists self w' fac,
    make getsource signature
    (AppFactoryFactory_init BashApp PythonApp nm) kind f dfk kwargs w = (Ret self, w') /\
    heap w' !! self = Some fac /\
    app_class fac = cls /\
    func_hash fac = MD5.hexdigest b /\
    trace w' = trace w.
Proof.
  intros Hk Hdom Hc Hn Hs Hg Hb.
  rewrite (make_forwards nm kind cls f dfk kwargs w Hk Hdom), Hc. simpl.
  rewrite AppFactory_new_cases, AppFactory_init_cases, Hn, Hs. simpl.
  rewrite Hg, Hb.
  eexists _, _, _. split; [reflexivity|]. simpl.
  split; [apply lookup_insert_eq|]. repeat split.
Qed.

(** X13: the whole default path: a factory made by [make] with no
    keyword, then called, builds one app object of the kind's class from
    the callable, the data flow kernel, 'all', 60, [False], the
    callable's name and [None], calls it on the arguments, and returns
    what it returns. *)
Theorem X13_make_then_call nm kind cls f dfk w n sg args ckw inst e1 :
  registered kind cls ->
  __name__ f = Some n ->
  signature f = Ret sg ->
  cls_new cls
    {| a_func := f; a_data_flow_kernel := dfk;
       a_executors := VStr (py "all"); a_walltime := VInt 60;
       a_cache := VBool false; a_fn_hash := n;
       a_auxiliary_files := VNone |} (ext w) = (Ret inst, e1) ->
  exists self w1,
    make getsource signature
    (AppFactoryFactory_init BashApp PythonApp nm) kind f dfk ∅ w = (Ret self, w1) /\
    (AppFactory_call self args ckw w1).1 = (cls_call cls inst args ckw e1).1 /\
    trace (AppFactory_call self args ckw w1).2 =
      trace w ++
      [Constructed cls
         {| a_func := f; a_data_flow_kernel := dfk;
            a_executors := VStr (py "all"); a_walltime := VInt 60;
            a_cache := VBool false; a_fn_hash := n;
            a_auxiliary_files := VNone |} inst;
       Called inst args ckw].
Proof.
  intros Hk Hn Hs Hc.
  rewrite (make_default_state nm kind cls f dfk w n sg Hk Hn Hs).
  eexists _, _. split; [reflexivity|].
  erewrite AppFactory_call_returns;
    [| simpl; apply lookup_insert_eq | simpl; exact Hc].
  split; reflexivity.
Qed.

End RegistryCases.

(** * More on calls and printing *)

Section CallCases.

Context {Ext Inst : Type}.

Implicit Types (cls : @AppClass Ext Inst) (w : @world Ext Inst)
  (fac : @AppFactory Ext Inst) (t u : list (@event Ext Inst))
  (args : list value) (kwargs : kwargs_t).

Local Abbreviation forwarded fac :=
  {| a_func := func fac;
     a_data_flow_kernel := data_flow_kernel fac;
     a_executors := executors fac;
     a_walltime := walltime fac;
     a_cache := cache fac;
     a_fn_hash := func_hash fac;
     a_auxiliary_files := auxiliary_files fac |}.




(** X14: when the app class constructor raises, the exception leaves
    [__call__] as it is: no app object is called, the trace and the heap
    are as before, the outside state is as the constructor left it. *)
Theorem X14_constructor_exception_propagates
    self fac args kwargs w x e1 :
  heap w !! self = Some fac ->
  cls_new (app_class fac)
    {| a_func := func fac;
       a_data_flow_kernel := data_flow_kernel fac;
       a_executors := executors fac;
       a_walltime := walltime fac;
       a_cache := cache fac;
       a_fn_hash := func_hash fac;
       a_auxiliary_files := auxiliary_files fac |} (ext w) = (Raise x, e1) ->
  AppFactory_call self args kwargs w = (Raise x, World (trace w) (heap w) e1) /\
  calls_made (trace (AppFactory_call self args kwargs w).2) =
    calls_made (trace w).
Proof.
  intros Hh Hc.
  rewrite (AppFactory_call_raises self fac args kwargs w x e1 Hh Hc).
  split; reflexivity.
Qed.



Lemma Ret_inj {A : Type} (x y : A) : Ret x = Ret y -> x = y.
Proof. now intros [=]. Qed.

(** Two strings that agree up to a first double quote agree before it
    and after it. *)
Lemma split_at_quote (c1 c2 r1 r2 : pystr) :
  34 ∉ c1 -> 34 ∉ c2 ->
  c1 ++ 34 :: r1 = c2 ++ 34 :: r2 ->
  c1 = c2 /\ r1 = r2.
Proof.
  revert c2. induction c1 as [|a c1 IH]; intros [|b c2] H1 H2 E; simpl in E.
  - injection E as <-. auto.
  - injection E as <- _. exfalso. apply H2. left.
  - injection E as -> _. exfalso. apply H1. left.
  - injection E as <- E.
    destruct (IH c2) as [-> ->]; auto.
    + intros Hin. apply H1. now right.
    + intros Hin. apply H2. now right.
Qed.

(** X17: [str] of a factory tells its class name and its function name:
    two factories whose class names hold no double quote and whose [str]
    are equal have the same class name and the same function name. *)
Theorem X17_str_tells_class_and_name a b fa fb w :
  heap w !! a = Some fa ->
  heap w !! b = Some fb ->
  34 ∉ cls_name (app_class fa) ->
  34 ∉ cls_name (app_class fb) ->
  AppFactory_str a w = AppFactory_str b w ->
  cls_name (app_class fa) = cls_name (app_class fb) /\ name fa = name fb.
Proof.
  intros Ha Hb Qa Qb.
  unfold AppFactory_str, bind, deref, ret. rewrite Ha, Hb.
  intros E. apply (f_equal fst) in E. cbn [fst] in E.
  apply Ret_inj in E.
  apply app_inv_head in E.
  apply (split_at_quote _ _ _ _ Qa Qb) in E as [Hc E]. split; [exact Hc|].
  do 2 apply app_inv_head in E.
  apply app_inv_tail in E. exact E.
Qed.

(** X18: [repr] is [str]; neither changes anything; and what they return
    for a factory is the same before and after any calls of it. *)
Theorem X18_repr_stable self fac calls w :
  heap w !! self = Some fac ->
  let w' := (call_all self calls w).2 in
  AppFactory_repr self w' = AppFactory_str self w' /\
  (AppFactory_str self w').2 = w' /\
  (AppFactory_str self w').1 = (AppFactory_str self w).1 /\
  exists s, (AppFactory_str self w).1 = Ret s /\
            length s = (24 + length (cls_name (app_class fac))
                        + length (name fac))%nat.
Proof.
  intros Hh w'. subst w'.
  destruct (call_all_frame self fac calls w Hh) as (H1 & _).
  unfold AppFactory_repr, AppFactory_str, bind, deref, ret.
  rewrite H1, Hh. simpl.
  split; [reflexivity|]. split; [reflexivity|]. split; [reflexivity|].
  eexists. split; [reflexivity|].
  simpl. rewrite !length_app. simpl. rewrite !length_app. simpl. lia.
Qed.

End CallCases.

(** * More on the bytes that are hashed *)

Lemma range_all_spec (depth : nat) (lo : N) (P : N -> bool) :
  range_all depth lo P = true ->
  forall c, lo <= c -> c < lo + 2 ^ N.of_nat depth -> P c = true.
Proof.
  revert lo. induction depth as [|d IH]; intros lo H c Hlo Hhi.
  - simpl in *. assert (c = lo) as -> by lia. exact H.
  - simpl in H. apply andb_true_iff in H as [H1 H2].
    rewrite Nat2N.inj_succ, N.pow_succ_r' in Hhi.
    destruct (N.lt_ge_cases c (lo + 2 ^ N.of_nat d)) as [Hc|Hc].
    + apply (IH lo H1); assumption.
    + apply (IH _ H2); [assumption | lia].
Qed.

(** Setting the top bits of a byte that has them clear adds them. *)
Lemma lor_continuation (y : N) : y < 64 -> N.lor 0x80 y = 128 + y.
Proof.
  intros Hy.
  apply N.eqb_eq.
  apply (range_all_spec 6 0 (fun y => N.lor 0x80 y =? 128 + y));
    [vm_compute; reflexivity | lia | exact Hy].
Qed.

Lemma lor_lead4 (y : N) : y < 8 -> N.lor 0xF0 y = 240 + y.
Proof.
  intros Hy.
  apply N.eqb_eq.
  apply (range_all_spec 3 0 (fun y => N.lor 0xF0 y =? 240 + y));
    [vm_compute; reflexivity | lia | exact Hy].
Qed.

Lemma land_low6 (x : N) : N.land x 0x3F = x mod 64.
Proof. change 0x3F with (N.ones 6). now rewrite N.land_ones. Qed.

(** The four bytes of a code point from U+10000 on. *)
Lemma encode_char_four (c : N) :
  0x10000 <= c -> c < 0x110000 ->
  Utf8.encode_char c =
    Some [240 + c / 262144; 128 + (c / 4096) mod 64;
          128 + (c / 64) mod 64; 128 + c mod 64].
Proof.
  intros Hlo Hhi. unfold Utf8.encode_char.
  destruct (N.ltb_spec c 0x80); [lia|].
  destruct (N.ltb_spec c 0x800); [lia|].
  destruct (N.ltb_spec c 0x10000); [lia|].
  destruct (N.ltb_spec c 0x110000); [|lia].
  rewrite !land_low6, !N.shiftr_div_pow2.
  change (2 ^ 18) with 262144. change (2 ^ 12) with 4096.
  change (2 ^ 6) with 64.
  rewrite lor_lead4 by (apply N.Div0.div_lt_upper_bound; lia).
  rewrite !lor_continuation by (apply N.mod_lt; lia).
  reflexivity.
Qed.

Lemma char_checked_four (c : N) :
  0x10000 <= c -> c < 0x110000 -> char_checked c = true.
Proof.
  intros Hlo Hhi. unfold char_checked.
  rewrite (encode_char_four c Hlo Hhi).
  assert (c / 262144 < 8) as H3 by (apply N.Div0.div_lt_upper_bound; lia).
  pose proof (N.mod_lt (c / 4096) 64 ltac:(lia)) as H2.
  pose proof (N.mod_lt (c / 64) 64 ltac:(lia)) as H1.
  pose proof (N.mod_lt c 64 ltac:(lia)) as H0.
  pose proof (N.div_mod c 64 ltac:(lia)) as D0.
  pose proof (N.div_mod (c / 64) 64 ltac:(lia)) as D1.
  pose proof (N.div_mod (c / 4096) 64 ltac:(lia)) as D2.
  replace (c / 64 / 64) with (c / 4096) in D1
    by (rewrite N.Div0.div_div; reflexivity).
  replace (c / 4096 / 64) with (c / 262144) in D2
    by (rewrite N.Div0.div_div; reflexivity).
  set (q1 := c / 64) in *. set (q2 := c / 4096) in *.
  set (q3 := c / 262144) in *. set (m0 := c mod 64) in *.
  set (m1 := q1 mod 64) in *. set (m2 := q2 mod 64) in *.
  clearbody m2 m1 m0 q3 q2 q1.
  apply andb_true_iff. split; [apply andb_true_iff; split|].
  - apply N.eqb_eq. unfold decode_char. lia.
  - simpl. rewrite !andb_true_iff. repeat split; apply N.ltb_lt; lia.
  - simpl length. unfold lead_length.
    destruct (N.ltb_spec (240 + q3) 0x80); [lia|].
    destruct (N.ltb_spec (240 + q3) 0xE0); [lia|].
    destruct (N.ltb_spec (240 + q3) 0xF0); [lia|]. reflexivity.
Qed.

(** The code points below U+10000, one by one. *)
Lemma plane0_checked : range_all 16 0 char_checked = true.
Proof. vm_cast_no_check (eq_refl true). Qed.

Lemma char_checked_all (c : N) : char_checked c = true.
Proof.
  destruct (N.lt_ge_cases c 0x10000) as [Hc|Hc].
  - apply (range_all_spec 16 0 _ plane0_checked);
      [lia | change (2 ^ N.of_nat 16) with 65536; lia].
  - destruct (N.lt_ge_cases c 0x110000) as [Hc'|Hc'].
    + now apply char_checked_four.
    + unfold char_checked, Utf8.encode_char.
      destruct (N.ltb_spec c 0x80); [lia|].
      destruct (N.ltb_spec c 0x800); [lia|].
      destruct (N.ltb_spec c 0x10000); [lia|].
      destruct (N.ltb_spec c 0x110000); [lia|]. reflexivity.
Qed.

Lemma encode_char_facts (c : N) (bs : pybytes) :
  Utf8.encode_char c = Some bs ->
  decode_char bs = c /\
  Forall (fun b => b < 256) bs /\
  exists b0 r, bs = b0 :: r /\ length bs = lead_length b0.
Proof.
  intros H. pose proof (char_checked_all c) as Hc.
  unfold char_checked in Hc. rewrite H in Hc.
  apply andb_true_iff in Hc as [Hc H3]. apply andb_true_iff in Hc as [H1 H2].
  split; [now apply N.eqb_eq|]. split.
  - rewrite forallb_forall in H2. apply List.Forall_forall. intros b Hb.
    apply N.ltb_lt. now apply H2.
  - destruct bs as [|b0 r]; [discriminate|].
    exists b0, r. split; [reflexivity|]. now apply Nat.eqb_eq.
Qed.

Lemma lead_length_bounds (b0 : N) : (1 <= lead_length b0 <= 4)%nat.
Proof.
  unfold lead_length.
  destruct (b0 <? 0x80); [lia|]. destruct (b0 <? 0xE0); [lia|].
  destruct (b0 <? 0xF0); lia.
Qed.

Lemma encode_char_None_iff (c : N) :
  Utf8.encode_char c = None <-> ~ scalar_value c.
Proof.
  unfold Utf8.encode_char, scalar_value.
  destruct (N.ltb_spec c 0x80);
    [split; [discriminate | intros; exfalso; lia]|].
  destruct (N.ltb_spec c 0x800);
    [split; [discriminate | intros; exfalso; lia]|].
  destruct (N.ltb_spec c 0x10000).
  - destruct (N.leb_spec 0xD800 c); destruct (N.leb_spec c 0xDFFF); simpl;
      split; intros H'; try discriminate; try reflexivity;
      try (exfalso; lia); lia.
  - destruct (N.ltb_spec c 0x110000);
      [split; [discriminate | intros; exfalso; lia]|].
    split; [lia|reflexivity].
Qed.

Lemma encode_char_Some_scalar (c : N) (bc : pybytes) :
  Utf8.encode_char c = Some bc -> scalar_value c.
Proof.
  intros H.
  assert (scalar_value c \/ ~ scalar_value c) as [Hs|Hs]
    by (unfold scalar_value; lia).
  - exact Hs.
  - apply encode_char_None_iff in Hs. congruence.
Qed.

Lemma encode_opt_cons (c : N) (r : pystr) (b : pybytes) :
  Utf8.encode_opt (c :: r) = Some b ->
  exists bc br,
    Utf8.encode_char c = Some bc /\ Utf8.encode_opt r = Some br /\ b = bc ++ br.
Proof.
  simpl. destruct (Utf8.encode_char c) as [bc|]; [|discriminate].
  destruct (Utf8.encode_opt r) as [br|]; [|discriminate].
  intros [= <-]. eauto.
Qed.

Lemma encode_Ret (s : pystr) (b : pybytes) :
  Utf8.encode s = Ret b <-> Utf8.encode_opt s = Some b.
Proof.
  unfold Utf8.encode. destruct (Utf8.encode_opt s); split; congruence.
Qed.

(** X19: a text of ASCII characters is encoded as itself: the bytes
    hashed are its code points. *)
Theorem X19_ascii_encodes_to_itself (s : pystr) :
  Forall (fun c => c < 128) s -> Utf8.encode s = Ret s.
Proof.
  intros H. apply encode_Ret. induction H as [|c r Hc _ IH]; [reflexivity|].
  simpl. rewrite IH. unfold Utf8.encode_char.
  destruct (N.ltb_spec c 0x80); [reflexivity|lia].
Qed.

(** X20: the encoding returns exactly for texts without lone surrogates
    (and code points out of range); what it raises is
    [UnicodeEncodeError]. *)
Theorem X20_encode_returns_iff_scalar (s : pystr) :
  ((exists b, Utf8.encode s = Ret b) <-> Forall scalar_value s) /\
  (forall e, Utf8.encode s = Raise e -> e = UnicodeEncodeError).
Proof.
  split.
  - induction s as [|c r IH].
    + split; [constructor|]. intros _. exists []. reflexivity.
    + split.
      * intros [b Hb]. apply encode_Ret, encode_opt_cons in Hb
          as (bc & br & Hc & Hr & _).
        constructor.
        -- exact (encode_char_Some_scalar c bc Hc).
        -- apply IH. exists br. now apply encode_Ret.
      * intros H. inversion H as [|? ? Hc Hr]; subst.
        apply IH in Hr as [br Hr]. apply encode_Ret in Hr.
        destruct (Utf8.encode_char c) as [bc|] eqn:Ec.
        -- exists (bc ++ br). apply encode_Ret. simpl. now rewrite Ec, Hr.
        -- apply encode_char_None_iff in Ec. contradiction.
  - intros e. unfold Utf8.encode. destruct (Utf8.encode_opt s); congruence.
Qed.

(** X21: what is handed to [md5] is a sequence of bytes, between one
    and four for each character of the text. *)
Theorem X21_encoded_bytes (s : pystr) (b : pybytes) :
  Utf8.encode s = Ret b ->
  Forall (fun x => x < 256) b /\
  (length s <= length b <= 4 * length s)%nat.
Proof.
  intros H. apply encode_Ret in H. revert b H.
  induction s as [|c r IH]; intros b H.
  - injection H as <-. split; [constructor|simpl; lia].
  - apply encode_opt_cons in H as (bc & br & Hc & Hr & ->).
    destruct (IH br Hr) as (Fr & Lr).
    destruct (encode_char_facts c bc Hc) as (_ & Fc & b0 & t & -> & Hl).
    pose proof (lead_length_bounds b0) as Hb.
    split; [now apply Forall_app|].
    rewrite length_app, Hl. simpl length. lia.
Qed.

(** X22: two texts with the same encoding are the same text: different
    source texts are hashed from different bytes. *)
Theorem X22_encode_injective (s1 s2 : pystr) (b : pybytes) :
  Utf8.encode s1 = Ret b -> Utf8.encode s2 = Ret b -> s1 = s2.
Proof.
  intros H1 H2. apply encode_Ret in H1, H2. revert s2 b H1 H2.
  induction s1 as [|c1 r1 IH]; intros [|c2 r2] b H1 H2.
  - reflexivity.
  - injection H1 as <-.
    apply encode_opt_cons in H2 as (bc & br & Hc & _ & E).
    destruct (encode_char_facts c2 bc Hc) as (_ & _ & b0 & t & -> & _).
    discriminate E.
  - injection H2 as <-.
    apply encode_opt_cons in H1 as (bc & br & Hc & _ & E).
    destruct (encode_char_facts c1 bc Hc) as (_ & _ & b0 & t & -> & _).
    discriminate E.
  - apply encode_opt_cons in H1 as (bc1 & br1 & Hc1 & Hr1 & ->).
    apply encode_opt_cons in H2 as (bc2 & br2 & Hc2 & Hr2 & E).
    destruct (encode_char_facts c1 bc1 Hc1) as (D1 & _ & b1 & t1 & -> & L1).
    destruct (encode_char_facts c2 bc2 Hc2) as (D2 & _ & b2 & t2 & -> & L2).
    assert (b1 = b2) as -> by (simpl in E; congruence).
    apply app_inj_1 in E as [E1 E2]; [|congruence].
    rewrite <- D1, <- D2, E1. f_equal.
    apply (IH r2 br2); congruence.
Qed.

Lemma pad_length (msg : pybytes) :
  length (MD5.pad msg) =
    (length msg + 1
     + N.to_nat ((119 - N.of_nat (length msg) mod 64) mod 64) + 8)%nat.
Proof.
  unfold MD5.pad. cbv zeta.
  rewrite !length_app, repeat_length, N_to_le_length. simpl. lia.
Qed.

Lemma pad_arith (n : N) :
  (n + 1 + (119 - n mod 64) mod 64 + 8) mod 64 = 0 /\
  (119 - n mod 64) mod 64 < 64.
Proof.
  pose proof (N.mod_lt n 64 ltac:(lia)) as Hm.
  pose proof (N.div_mod n 64 ltac:(lia)) as Hd.
  generalize dependent (n mod 64). generalize dependent (n / 64).
  intros q m Hm Hd.
  assert ((119 - m) mod 64 = if m <? 56 then 55 - m else 119 - m) as ->.
  { destruct (N.ltb_spec m 56).
    - symmetry. apply (N.mod_unique _ _ 1); lia.
    - symmetry. apply (N.mod_unique _ _ 0); lia. }
  split.
  - destruct (N.ltb_spec m 56).
    + symmetry. apply (N.mod_unique _ _ (q + 1)); lia.
    + symmetry. apply (N.mod_unique _ _ (q + 2)); lia.
  - destruct (N.ltb_spec m 56); lia.
Qed.

(** X23: the padded message is the message followed by 9 to 72 bytes,
    its length is a multiple of the block size, so that every byte of
    the text goes through the compression; padding a sequence of bytes
    gives bytes. *)
Theorem X23_padding_fills_blocks (msg : pybytes) :
  (length (MD5.pad msg) mod 64 = 0)%nat /\
  (length msg + 9 <= length (MD5.pad msg) <= length msg + 72)%nat /\
  take (length msg) (MD5.pad msg) = msg /\
  (Forall (fun x => x < 256) msg -> Forall (fun x => x < 256) (MD5.pad msg)).
Proof.
  pose proof (pad_length msg) as HL.
  destruct (pad_arith (N.of_nat (length msg))) as [Ha Hz].
  split; [|split; [|split]].
  - apply Nat2N.inj. rewrite Nat2N.inj_mod, HL.
    rewrite !Nat2N.inj_add, N2Nat.id. exact Ha.
  - rewrite HL. clear Ha.
    generalize dependent ((119 - N.of_nat (length msg) mod 64) mod 64).
    intros z _ Hz. lia.
  - unfold MD5.pad. cbv zeta. apply take_app_length.
  - intros Hm. unfold MD5.pad. cbv zeta.
    repeat (apply Forall_app; split); try assumption.
    + repeat constructor.
    + apply Forall_forall. intros x Hx. apply list_elem_of_In in Hx.
      apply repeat_spec in Hx. subst. lia.
    + apply N_to_le_bytes.
Qed.

(** * The further properties at the stub callables *)

Lemma X3_witness :
  exists fac,
    heap Stub.w_made !! 0%N = Some fac /\
    app_class fac = Stub.PythonApp /\
    func fac = Stub.double /\
    status fac = py "created" /\
    Stub.signature Stub.double = Ret (sig fac).
Proof.
  destruct (X3_construction_stores_arguments Stub.getsource Stub.signature
              Stub.PythonApp Stub.double VNone (VBool true) (VStr (py "all"))
              (VInt 60) VNone Stub.w0 0 Stub.w_made
              ltac:(vm_compute; reflexivity))
    as (fac & L & A & F & _ & _ & _ & _ & _ & S & _ & G).
  exists fac. repeat split; assumption.
Defined.

Lemma X6_witness :
  exists fac,
    heap (AppFactory_new Stub.getsource Stub.signature Stub.PythonApp
            Stub.prompt_f VNone (VBool true) (VStr (py "all")) (VInt 60)
            VNone Stub.w0).2 !! 0%N = Some fac /\
    length (func_hash fac) = 32%nat /\
    Forall is_hexdigit (func_hash fac).
Proof.
  exact (X6_cached_identity_is_hex32 Stub.getsource Stub.signature
           Stub.PythonApp Stub.prompt_f VNone (VBool true) (VStr (py "all"))
           (VInt 60) VNone Stub.w0 0 _ eq_refl
           ltac:(vm_compute; reflexivity)).
Defined.

Lemma X7_witness :
  built_identity
    (AppFactory_new Stub.getsource Stub.signature Stub.PythonApp
       Stub.prompt_f VNone (VBool true) (VStr (py "all")) (VInt 60) VNone
       Stub.w0)
  = built_identity
    (AppFactory_new Stub.getsource Stub.signature Stub.BashApp
       (Callable 7 (Some (py "f"))) (VObj 2) (VBool true) (VList [])
       (VInt 5) VNone Stub.w_made).
Proof.
  apply (X7_same_name_same_identity Stub.getsource Stub.signature
           Stub.PythonApp Stub.BashApp Stub.prompt_f
           (Callable 7 (Some (py "f"))) VNone (VObj 2) (VBool true)
           (VStr (py "all")) (VList []) (VInt 60) (VInt 5) VNone VNone
           Stub.w0 Stub.w_made [py "x"] [py "x"]).
  - reflexivity.
  - reflexivity.
  - reflexivity.
  - intros _. split; reflexivity.
Defined.

Lemma X8_witness :
  exists l2 w2 fac1 fac2,
    AppFactory_new Stub.getsource Stub.signature Stub.BashApp Stub.double
      (VObj 2) (VBool true) (VList []) (VInt 5) VNone Stub.w_made
    = (Ret l2, w2) /\
    0%N <> l2 /\
    heap w2 !! 0%N = Some fac1 /\
    heap w2 !! l2 = Some fac2 /\
    func_hash fac2 = func_hash fac1.
Proof.
  exact (X8_second_construction Stub.getsource Stub.signature
           Stub.PythonApp Stub.BashApp Stub.double VNone (VObj 2)
           (VBool true) (VStr (py "all")) (VList []) (VInt 60) (VInt 5)
           VNone VNone Stub.w0 0 Stub.w_made
           ltac:(vm_compute; reflexivity)).
Defined.

Lemma X9_witness :
  make Stub.getsource Stub.signature Stub.registry (py "bash") Stub.double
    VNone {[ py "retries" := VInt 3 ]} Stub.w0
  = (Raise TypeError, Stub.w0).
Proof.
  apply (X9_make_rejects_unknown_keyword Stub.getsource Stub.signature
           Stub.BashApp Stub.PythonApp (py "dfk_registry") (py "bash")
           Stub.BashApp Stub.double VNone {[ py "retries" := VInt 3 ]}
           Stub.w0 (py "retries")).
  - left. split; reflexivity.
  - apply elem_of_dom. exists (VInt 3). apply lookup_singleton_eq.
  - rewrite !elem_of_cons, elem_of_nil. intuition discriminate.
Defined.

Lemma X10_witness :
  make Stub.getsource Stub.signature Stub.registry (py "python") Stub.double
    (VObj 1) ∅ Stub.w0
  = (Ret 0,
     World []
       {[ 0 := {| name := py "double"; app_class := Stub.PythonApp;
                  data_flow_kernel := VObj 1; func := Stub.double;
                  status := py "created"; walltime := VInt 60;
                  executors := VStr (py "all"); sig := [py "x"];
                  cache := VBool false; auxiliary_files := VNone;
                  func_hash := py "double" |} ]} O).
Proof.
  exact (X10_make_defaults Stub.getsource Stub.signature Stub.BashApp
           Stub.PythonApp (py "dfk_registry") (py "python") Stub.PythonApp
           Stub.double (VObj 1) Stub.w0 (py "double") [py "x"]
           (or_intror (conj eq_refl eq_refl)) eq_refl eq_refl).
Defined.

Lemma X12_witness :
  exists self w' fac,
    make Stub.getsource Stub.signature Stub.registry (py "bash") Stub.double
      VNone {[ py "cache" := VBool true ]} Stub.w0 = (Ret self, w') /\
    heap w' !! self = Some fac /\
    app_class fac = Stub.BashApp /\
    func_hash fac = py "c054adf36f4977e9da2984e6f9d6ac24".
Proof.
  destruct (X12_make_cached_hashes_source Stub.getsource Stub.signature
              Stub.BashApp Stub.PythonApp (py "dfk_registry") (py "bash")
              Stub.BashApp Stub.double VNone {[ py "cache" := VBool true ]}
              Stub.w0 (py "double") [py "x"]
              (py "def double(x): return 2 * x")
              (py "def double(x): return 2 * x"))
    as (self & w' & fac & E & L & A & H & _).
  - left. split; reflexivity.
  - apply (bool_decide_unpack _). vm_compute. exact I.
  - reflexivity.
  - reflexivity.
  - reflexivity.
  - reflexivity.
  - reflexivity.
  - exists self, w', fac. split; [exact E|]. split; [exact L|].
    split; [exact A|]. rewrite H. vm_compute. reflexivity.
Defined.

Lemma X13_witness :
  exists self w1,
    make Stub.getsource Stub.signature Stub.registry (py "python")
      Stub.double VNone ∅ Stub.w0 = (Ret self, w1) /\
    (AppFactory_call self [VInt 4] ∅ w1).1 = Ret (VList [VInt 4]) /\
    constructions (trace (AppFactory_call self [VInt 4] ∅ w1).2) = 1%nat.
Proof.
  destruct (X13_make_then_call Stub.getsource Stub.signature Stub.BashApp
              Stub.PythonApp (py "dfk_registry") (py "python")
              Stub.PythonApp Stub.double VNone Stub.w0 (py "double")
              [py "x"] [VInt 4] ∅ _ _
              (or_intror (conj eq_refl eq_refl)) eq_refl eq_refl eq_refl)
    as (self & w1 & E & R & T).
  exists self, w1. split; [exact E|]. split; [exact R|].
  rewrite T. reflexivity.
Defined.

Lemma X14_witness :
  AppFactory_call 2 [VInt 4] ∅ Refusing.w_three
  = (Raise ValueError, Refusing.w_three).
Proof.
  destruct (X14_constructor_exception_propagates 2 Refusing.fac_strict
              [VInt 4] ∅ Refusing.w_three ValueError O
              ltac:(vm_compute; reflexivity) eq_refl) as [H _].
  exact H.
Defined.



Lemma X17_witness :
  cls_name (app_class Stub.fac_double) = cls_name (app_class Stub.fac_double)
  /\ name Stub.fac_double = name Stub.fac_double.
Proof.
  apply (X17_str_tells_class_and_name 0 1 Stub.fac_double Stub.fac_double
           Refusing.w_three).
  - vm_compute. reflexivity.
  - vm_compute. reflexivity.
  - apply (bool_decide_unpack _). vm_compute. exact I.
  - apply (bool_decide_unpack _). vm_compute. exact I.
  - vm_compute. reflexivity.
Defined.

Lemma X18_witness :
  (AppFactory_repr 0
     (call_all 0 [([VInt 1], ∅)] Stub.w_made).2).1
  = Ret (py "<class PythonApp" ++ [34] ++ py "AppFactory for double>").
Proof.
  destruct (X18_repr_stable 0 Stub.fac_double [([VInt 1], ∅)] Stub.w_made
              ltac:(vm_compute; reflexivity)) as (H1 & _ & H3 & _).
  rewrite H1, H3. vm_compute. reflexivity.
Defined.

Lemma X19_witness :
  Utf8.encode (py "def double(x): return 2 * x")
  = Ret (py "def double(x): return 2 * x").
Proof.
  apply X19_ascii_encodes_to_itself.
  apply Forall_forall. intros c Hc.
  repeat (apply elem_of_cons in Hc as [-> | Hc]; [reflexivity|]).
  now apply elem_of_nil in Hc.
Defined.

Lemma X21_witness :
  Forall (fun x => x < 256) [0xC3; 0xA9; 0xE2; 0x82; 0xAC] /\
  (2 <= 5 <= 4 * 2)%nat.
Proof.
  exact (X21_encoded_bytes [0xE9; 0x20AC] [0xC3; 0xA9; 0xE2; 0x82; 0xAC]
           eq_refl).
Defined.

Lemma X22_witness : [0xE9; 0x20AC] = [0xE9; 0x20AC].
Proof.
  exact (X22_encode_injective [0xE9; 0x20AC] [0xE9; 0x20AC]
           [0xC3; 0xA9; 0xE2; 0x82; 0xAC] eq_refl eq_refl).
Defined.
